(** * MealMapper: the data-access layer of the recipe server

    A shallow embedding of [server/appService.js] (connection wrapper and
    query executors) and [server/appController.js] (route handlers), with
    the properties of the request/response layer proved over it.

    Asynchronous functions are run to completion one after the other:
    every [await] is a sequencing point of a state-and-exception monad over
    a [World] that holds the database, the console and the outcomes the
    driver is going to report. *)

From Stdlib Require Import ZArith List String Bool Lia Sorted Permutation.
Import ListNotations.
Local Open Scope string_scope.
Local Open Scope Z_scope.

(** ** JavaScript values that cross the executor/handler boundary *)

Inductive JsVal : Type :=
| JUndefined
| JNull
| JBool (b : bool)
| JNum (n : Z)
| JStr (s : string).

(** ToBoolean, as used by [if (response)] and [!response]. *)
Definition truthy (v : JsVal) : bool :=
  match v with
  | JUndefined | JNull => false
  | JBool b => b
  | JNum n => negb (n =? 0)
  | JStr s => negb (s =? "")%string
  end.

Inductive Error : Type :=
| DbError (message : string)
| TypeError (message : string).

(** The completion of an awaited call: a value, or a thrown error
    (a rejected promise). *)
Inductive Outcome (A : Type) : Type :=
| Returned (a : A)
| Thrown (err : Error).
Arguments Returned {A} a.
Arguments Thrown {A} err.

(** ** The relational store *)

Inductive Value : Type :=
| VNull
| VNum (n : Z)
| VStr (s : string).

Definition Row : Type := list Value.

Record Location : Type := mkLocation
  { Street : string; City : string; Province : string; LocationType : string }.

(** A row of [RecipeCreated2]. *)
Record Recipe : Type := mkRecipe
  { RecipeID : Z; RecipeName : string; Cuisine : string;
    CookingTime : string; UserID : Z }.

(** A row of [RecipeCreated1]: the level of a cuisine. *)
Record CuisineLevel : Type := mkCuisineLevel
  { level_Cuisine : string; RecipeLevel : string }.

(** A row of [Users2], the table the recipe queries join for the creator. *)
Record Creator : Type := mkCreator
  { creator_UserID : Z; creator_UserName : string }.

(** A row of [User2], the table the user queries read. *)
Record User : Type := mkUser
  { UserId : Z; UserName : string; Points : Z }.

(** A row of [User1]: a tier, its points threshold and its name. *)
Record Tier : Type := mkTier
  { tier_Points : Z; UserLevel : string }.

Record RecipeLike : Type := mkRecipeLike
  { like_UserID : Z; like_RecipeID : Z; Liked : Z }.

Record UserPantry : Type := mkUserPantry
  { up_UserID : Z; up_PantryID : Z }.

Record Pantry : Type := mkPantry
  { PantryID : Z; Category : string }.

(** Modelled from the spec: a row of the image table, which no statement
    of the sources reads (section 3: RecipeID, URL, optional Caption). *)
Record Image : Type := mkImage
  { img_RecipeID : Z; URL : string; Caption : option string }.

(** Modelled from the spec: a row of the step table, which no statement
    of the sources reads (section 3: RecipeID, StepNumber, Instruction). *)
Record Step : Type := mkStep
  { step_RecipeID : Z; StepNumber : Z; Instruction : string }.

Record Database : Type := mkDatabase
  { Locations : list Location;
    RecipeCreated2 : list Recipe;
    RecipeCreated1 : list CuisineLevel;
    Users2 : list Creator;
    User2 : list User;
    User1 : list Tier;
    RecipesLiked : list RecipeLike;
    UserPantries : list UserPantry;
    SavedPantry : list Pantry;
    Images : list Image;
    Steps : list Step }.

Definition with_RecipeCreated2 (rs : list Recipe) (db : Database) : Database :=
  mkDatabase (Locations db) rs (RecipeCreated1 db) (Users2 db) (User2 db)
             (User1 db) (RecipesLiked db) (UserPantries db) (SavedPantry db)
             (Images db) (Steps db).

Definition with_Steps (ss : list Step) (db : Database) : Database :=
  mkDatabase (Locations db) (RecipeCreated2 db) (RecipeCreated1 db)
             (Users2 db) (User2 db) (User1 db) (RecipesLiked db)
             (UserPantries db) (SavedPantry db) (Images db) ss.

(** ** The statements the executors send

    The ids the executors are called with are the texts the routes take
    from the path.  [DeleteRecipe], [SelectRecipeByID] and [UpdateRecipe]
    pass the text as a bind variable; [SelectUser] and [SelectPantries]
    splice it into the text of the statement. *)

Inductive Statement : Type :=
| SelectLocations
| SelectAllRecipes
| SelectLikedRecipes
| InsertRecipe (recipeName cuisine cookingTime : string) (userID : Z)
| DeleteRecipe (recipeID : string)
| SelectUser (UserID : string)
| SelectAllUsers
| SelectPantries (UserID : string)
| SelectRecipeByID (recipeID : string)
| UpdateRecipe (recipeName cuisine cookingTime : string) (userID : Z)
               (recipeID : string)
(* the statements of the two executors modelled from the specification *)
| SelectRecipes (columns : option (list string)) (cuisineFilter : option string)
                (id : option Z) (includeImages captionless : bool)
| InsertStep (stepNumber : Z) (instruction : string) (recipeID : string).

(** What [connection.execute] resolves to. *)
Record Result : Type := mkResult
  { rows : list Row; rowsAffected : Z; outBinds : list Z }.

Definition select_result (rs : list Row) : Result := mkResult rs 0 [].
Definition dml_result (n : Z) (out : list Z) : Result := mkResult [] n out.

(** *** ORDER BY *)

Section OrderBy.
Context {A : Type} (leb : A -> A -> bool).

Fixpoint insert_by (x : A) (l : list A) : list A :=
  match l with
  | [] => [x]
  | y :: l' => if leb x y then x :: l else y :: insert_by x l'
  end.

Fixpoint order_by (l : list A) : list A :=
  match l with
  | [] => []
  | x :: l' => insert_by x (order_by l')
  end.
End OrderBy.

Definition location_leb (a b : Location) : bool :=
  if (City a =? City b)%string then String.leb (Street a) (Street b)
  else String.leb (City a) (City b).

(** *** Queries *)

Definition location_row (l : Location) : Row :=
  [VStr (Street l); VStr (City l); VStr (Province l); VStr (LocationType l)].

Definition select_locations (db : Database) : list Row :=
  map location_row (order_by location_leb (Locations db)).

(** [FROM RecipeCreated2 r JOIN RecipeCreated1 rc ON r.Cuisine = rc.Cuisine
     JOIN Users2 u ON r.UserID = u.UserID ORDER BY r.RecipeID] *)
Definition select_all_recipes (db : Database) : list Row :=
  flat_map (fun r =>
    flat_map (fun rc =>
      if (Cuisine r =? level_Cuisine rc)%string then
        flat_map (fun u =>
          if UserID r =? creator_UserID u then
            [[VNum (RecipeID r); VStr (RecipeName r); VStr (Cuisine r);
              VStr (RecipeLevel rc); VStr (CookingTime r);
              VStr (creator_UserName u)]]
          else []) (Users2 db)
      else []) (RecipeCreated1 db))
    (order_by (fun a b => RecipeID a <=? RecipeID b) (RecipeCreated2 db)).

(** [FROM RecipesLiked rl JOIN RecipeCreated2 rc ON rl.RecipeID = rc.RecipeID
     JOIN Users2 u ON rc.UserID = u.UserID WHERE rl.Liked = 1
     ORDER BY rl.RecipeID] *)
Definition select_liked_recipes (db : Database) : list Row :=
  flat_map (fun rl =>
    if Liked rl =? 1 then
      flat_map (fun rc =>
        if like_RecipeID rl =? RecipeID rc then
          flat_map (fun u =>
            if UserID rc =? creator_UserID u then
              [[VNum (like_RecipeID rl); VStr (RecipeName rc);
                VStr (Cuisine rc); VStr (CookingTime rc);
                VStr (creator_UserName u)]]
            else []) (Users2 db)
        else []) (RecipeCreated2 db)
    else [])
    (order_by (fun a b => like_RecipeID a <=? like_RecipeID b)
              (RecipesLiked db)).

(** [SELECT MAX(Points) FROM User1 WHERE u.Points >= Points]: the aggregate
    of no row is NULL. *)
Fixpoint max_tier_points (tiers : list Tier) (points : Z) : option Z :=
  match tiers with
  | [] => None
  | t :: tiers' =>
      if tier_Points t <=? points then
        match max_tier_points tiers' points with
        | Some m => Some (Z.max (tier_Points t) m)
        | None => Some (tier_Points t)
        end
      else max_tier_points tiers' points
  end.

Definition user_row (u : User) (p : Tier) : Row :=
  [VNum (UserId u); VStr (UserName u); VNum (Points u); VStr (UserLevel p)].

(** The join and the correlated subquery shared by the two user queries:
    [JOIN User1 p ON u.Points >= p.Points] kept where
    [p.Points = (SELECT MAX(Points) ...)]; a comparison with NULL keeps
    nothing. *)
Definition ranked (db : Database) (u : User) : list Row :=
  flat_map (fun p =>
    if (tier_Points p <=? Points u)
       && match max_tier_points (User1 db) (Points u) with
          | Some m => tier_Points p =? m
          | None => false
          end
    then [user_row u p] else []) (User1 db).

Definition select_user (db : Database) (id : Z) : list Row :=
  flat_map (fun u => if UserId u =? id then ranked db u else []) (User2 db).

Definition select_all_users (db : Database) : list Row :=
  flat_map (ranked db)
           (order_by (fun a b => UserId a <=? UserId b) (User2 db)).

(** [FROM UserPantries u JOIN SavedPantry p ON u.PantryID = p.PantryID
     WHERE u.UserID = id] *)
Definition select_pantries (db : Database) (id : Z) : list Row :=
  flat_map (fun u =>
    if up_UserID u =? id then
      flat_map (fun p =>
        if up_PantryID u =? PantryID p then
          [[VNum (up_UserID u); VNum (up_PantryID u); VStr (Category p)]]
        else []) (SavedPantry db)
    else []) (UserPantries db).

(** [FROM RecipeCreated2 r JOIN Users2 u ON r.UserID = u.UserID
     WHERE r.RecipeID = id] *)
Definition select_recipe_by_id (db : Database) (id : Z) : list Row :=
  flat_map (fun r =>
    if RecipeID r =? id then
      flat_map (fun u =>
        if UserID r =? creator_UserID u then
          [[VNum (RecipeID r); VStr (RecipeName r); VStr (Cuisine r);
            VStr (CookingTime r); VStr (creator_UserName u)]]
        else []) (Users2 db)
    else []) (RecipeCreated2 db).

Definition count_matching (id : Z) (rs : list Recipe) : Z :=
  Z.of_nat (List.length (filter (fun r => RecipeID r =? id) rs)).

Definition delete_recipe (id : Z) (rs : list Recipe) : list Recipe :=
  filter (fun r => negb (RecipeID r =? id)) rs.

Definition update_recipe (name cuisine time : string) (user id : Z)
                         (rs : list Recipe) : list Recipe :=
  map (fun r => if RecipeID r =? id then mkRecipe id name cuisine time user
                else r) rs.

(** *** The statements modelled from the specification *)

(** Modelled from the spec: a joined row of [fetchRecipes] before the select
    list is applied, under the attribute names of section 3. *)
Definition Attributes : Type := list (string * Value).

Definition recipe_attributes (r : Recipe) : Attributes :=
  [("RecipeID", VNum (RecipeID r)); ("RecipeName", VStr (RecipeName r));
   ("Cuisine", VStr (Cuisine r)); ("CookingTime", VStr (CookingTime r));
   ("UserID", VNum (UserID r))].

Definition image_attributes (i : Image) : Attributes :=
  [("URL", VStr (URL i));
   ("Caption", match Caption i with Some c => VStr c | None => VNull end)].

(** Modelled from the spec: the "fixed set of recipe attributes" the
    select list of [fetchRecipes] defaults to. *)
Definition default_columns : list string :=
  ["RecipeID"; "RecipeName"; "Cuisine"; "CookingTime"; "UserID"].

Fixpoint lookup_column (name : string) (attrs : Attributes) : option Value :=
  match attrs with
  | [] => None
  | (n, v) :: attrs' =>
      if (n =? name)%string then Some v else lookup_column name attrs'
  end.

(** The select list applied to one joined row; a name that is no column of
    the row makes the statement invalid. *)
Fixpoint project (columns : list string) (attrs : Attributes) : option Row :=
  match columns with
  | [] => Some []
  | c :: columns' =>
      match lookup_column c attrs, project columns' attrs with
      | Some v, Some row => Some (v :: row)
      | _, _ => None
      end
  end.

Fixpoint project_all (columns : list string) (joined : list (Recipe * Attributes))
  : option (list Row) :=
  match joined with
  | [] => Some []
  | (_, attrs) :: joined' =>
      match project columns attrs, project_all columns joined' with
      | Some row, Some rs => Some (row :: rs)
      | _, _ => None
      end
  end.

Definition restricted (cuisineFilter : option string) (id : option Z)
                      (r : Recipe) : bool :=
  match id with
  | Some n => RecipeID r =? n
  | None =>
      match cuisineFilter with
      | Some c => (Cuisine r =? c)%string
      | None => true
      end
  end.

Definition lacks_caption (i : Image) : bool :=
  match Caption i with Some _ => false | None => true end.

(** Modelled from the spec: the rows behind [fetchRecipes], whose statement
    is not under src/.  Section 4.2: the recipes, optionally joined with
    their images and then optionally kept only where the caption is
    missing, optionally restricted to one RecipeID or to one cuisine, in
    RecipeID order. *)
Definition select_recipes_joined (db : Database) (cuisineFilter : option string)
    (id : option Z) (includeImages captionless : bool)
  : list (Recipe * Attributes) :=
  flat_map (fun r =>
    if includeImages then
      flat_map (fun i =>
        if (img_RecipeID i =? RecipeID r)
           && (negb captionless || lacks_caption i)
        then [(r, (recipe_attributes r ++ image_attributes i)%list)] else [])
        (Images db)
    else [(r, recipe_attributes r)])
    (filter (restricted cuisineFilter id)
       (order_by (fun a b => RecipeID a <=? RecipeID b) (RecipeCreated2 db))).

(** Modelled from the spec: the select list of [fetchRecipes] "defaults to
    a fixed set of recipe attributes, optionally narrowed to the
    caller-specified column list". *)
Definition select_recipes (db : Database) (columns : option (list string))
    (cuisineFilter : option string) (id : option Z)
    (includeImages captionless : bool) : option (list Row) :=
  project_all (match columns with Some cs => cs | None => default_columns end)
    (select_recipes_joined db cuisineFilter id includeImages captionless).

(** *** Texts where a number is expected *)

Definition digit (c : Ascii.ascii) : option Z :=
  let n := Ascii.nat_of_ascii c in
  if (48 <=? n)%nat && (n <=? 57)%nat then Some (Z.of_nat (n - 48)) else None.

Fixpoint digits (acc : Z) (s : string) : option Z :=
  match s with
  | EmptyString => Some acc
  | String c s' =>
      match digit c with
      | Some d => digits (10 * acc + d) s'
      | None => None
      end
  end.

Definition minus_sign : Ascii.ascii := Ascii.ascii_of_nat 45.

(** The digits a NUMBER holds exactly. *)
Definition number_precision : nat := 38.

Definition natural (s : string) : option Z :=
  match s with
  | EmptyString => None
  | _ => if (String.length s <=? number_precision)%nat then digits 0 s
         else None
  end.

(** The integer a text denotes when it is a decimal numeral that the
    database reads exactly: digits only, at most [number_precision] of
    them, after an optional minus sign. *)
Definition decimal (s : string) : option Z :=
  match s with
  | EmptyString => None
  | String c s' =>
      if Ascii.eqb c minus_sign then option_map Z.opp (natural s')
      else natural s
  end.

(** What the database makes of a text bound where a column is a number:
    an integer, a number that is no integer (and so equals no id), or no
    number at all, which makes the statement fail. *)
Inductive Reading : Type :=
| Integer (n : Z)
| NoInteger
| NotANumber.

(** The part of the database that the sources do not determine: how it
    converts a bound text that is no decimal numeral, and what it answers
    to a statement into which such a text has been spliced ([None]: it
    rejects the statement). *)
Record Dialect : Type := mkDialect
  { bind_reading : string -> Reading;
    splice_meaning : Statement -> Database -> option (list Row) }.

Definition read_bind (d : Dialect) (text : string) : Reading :=
  match decimal text with
  | Some n => Integer n
  | None => bind_reading d text
  end.

(** The engine: what a statement returns and does to the tables, given the
    next value of [recipe_seq]; [None] when the statement is invalid.
    Statements the database rejects for a reason that lies in a schema
    which is not part of the sources (a violated constraint, a value of
    the wrong type) are failures of [execute], below.

    A text spliced after [u.UserID=] makes the condition the comparison
    with a number when it is a decimal numeral; any other text makes
    another statement, of which only [splice_meaning] knows the answer.
    It is still one query sent by one [execute], and leaves the tables as
    they are. *)
Definition run (d : Dialect) (stmt : Statement) (nextval : Z) (db : Database)
  : option (Result * Database) :=
  match stmt with
  | SelectLocations => Some (select_result (select_locations db), db)
  | SelectAllRecipes => Some (select_result (select_all_recipes db), db)
  | SelectLikedRecipes => Some (select_result (select_liked_recipes db), db)
  | InsertRecipe name cuisine time user =>
      Some (dml_result 1 [nextval],
            with_RecipeCreated2
              (RecipeCreated2 db ++ [mkRecipe nextval name cuisine time user])
              db)
  | DeleteRecipe recipeID =>
      match read_bind d recipeID with
      | Integer id =>
          Some (dml_result (count_matching id (RecipeCreated2 db)) [],
                with_RecipeCreated2 (delete_recipe id (RecipeCreated2 db)) db)
      | NoInteger => Some (dml_result 0 [], db)
      | NotANumber => None
      end
  | SelectUser UserID =>
      match decimal UserID with
      | Some id => Some (select_result (select_user db id), db)
      | None =>
          match splice_meaning d stmt db with
          | Some rs => Some (select_result rs, db)
          | None => None
          end
      end
  | SelectAllUsers => Some (select_result (select_all_users db), db)
  | SelectPantries UserID =>
      match decimal UserID with
      | Some id => Some (select_result (select_pantries db id), db)
      | None =>
          match splice_meaning d stmt db with
          | Some rs => Some (select_result rs, db)
          | None => None
          end
      end
  | SelectRecipeByID recipeID =>
      match read_bind d recipeID with
      | Integer id => Some (select_result (select_recipe_by_id db id), db)
      | NoInteger => Some (select_result [], db)
      | NotANumber => None
      end
  | UpdateRecipe name cuisine time user recipeID =>
      match read_bind d recipeID with
      | Integer id =>
          Some (dml_result (count_matching id (RecipeCreated2 db)) [],
                with_RecipeCreated2
                  (update_recipe name cuisine time user id (RecipeCreated2 db))
                  db)
      | NoInteger => Some (dml_result 0 [], db)
      | NotANumber => None
      end
  | SelectRecipes columns cuisineFilter id includeImages captionless =>
      match select_recipes db columns cuisineFilter id includeImages
                           captionless with
      | Some rs => Some (select_result rs, db)
      | None => None
      end
  | InsertStep stepNumber instruction recipeID =>
      match read_bind d recipeID with
      | Integer id =>
          Some (dml_result 1 [],
                with_Steps (Steps db ++ [mkStep id stepNumber instruction]) db)
      | _ => None
      end
  end.

(** ** The world an asynchronous function runs in *)

Inductive LogEntry : Type :=
| LogError (err : Error)
| LogValue (v : JsVal)
| LogText (s : string).

Record Connection : Type := mkConnection { conn_id : nat }.

(** Driver calls, in the order they were made. *)
Inductive Event : Type :=
| EvGetConnection (granted : option Connection)
| EvExecute (c : Connection) (stmt : Statement) (ok : bool)
| EvCommit (c : Connection) (ok : bool)
| EvClose (c : Connection) (ok : bool).

(** [committed] is the durable state of the tables and [session] the view
    of the connection in use, which includes its uncommitted changes.
    [faults] holds what the next driver calls are going to report, one
    entry per call: [None] for success, [Some err] for a rejection with
    [err]; calls beyond the list succeed.  [checked_out] counts the
    connections taken from the pool and not given back.  [dialect] is
    the database's reading of the texts it is sent; it never changes. *)
Record World : Type := mkWorld
  { committed : Database;
    session : Database;
    recipe_seq : Z;
    faults : list (option Error);
    console : list LogEntry;
    events : list Event;
    checked_out : nat;
    granted : nat;
    dialect : Dialect }.

Definition M (A : Type) : Type := World -> Outcome A * World.

Definition ret {A} (a : A) : M A := fun w => (Returned a, w).

Definition throw {A} (err : Error) : M A := fun w => (Thrown err, w).

(** [await m; k]: a rejection of [m] skips [k]. *)
Definition bind {A B} (m : M A) (k : A -> M B) : M B :=
  fun w =>
    match m w with
    | (Returned a, w') => k a w'
    | (Thrown err, w') => (Thrown err, w')
    end.

Notation "x <- m ;; k" := (bind m (fun x => k))
  (at level 61, m at next level, right associativity).
Notation "m ;;; k" := (bind m (fun _ => k))
  (at level 61, right associativity).

(** [promise.catch(handler)] *)
Definition promise_catch {A} (m : M A) (handler : Error -> M A) : M A :=
  fun w =>
    match m w with
    | (Returned a, w') => (Returned a, w')
    | (Thrown err, w') => handler err w'
    end.

Definition write_console (e : LogEntry) (w : World) : World :=
  mkWorld (committed w) (session w) (recipe_seq w) (faults w)
          (console w ++ [e]) (events w) (checked_out w) (granted w) (dialect w).

Definition record_event (e : Event) (w : World) : World :=
  mkWorld (committed w) (session w) (recipe_seq w) (faults w)
          (console w) (events w ++ [e]) (checked_out w) (granted w) (dialect w).

Definition console_error (err : Error) : M unit :=
  fun w => (Returned tt, write_console (LogError err) w).

Definition console_log (v : JsVal) : M unit :=
  fun w => (Returned tt, write_console (LogValue v) w).

(** *** The driver *)

Definition next_fault (w : World) : option Error * World :=
  match faults w with
  | [] => (None, w)
  | f :: fs =>
      (f, mkWorld (committed w) (session w) (recipe_seq w) fs
                  (console w) (events w) (checked_out w) (granted w) (dialect w))
  end.

(** [oracledb.getConnection()]: a new session sees the committed tables. *)
Definition getConnection : M Connection :=
  fun w =>
    match next_fault w with
    | (Some err, w') => (Thrown err, record_event (EvGetConnection None) w')
    | (None, w') =>
        let c := mkConnection (granted w') in
        (Returned c,
         record_event (EvGetConnection (Some c))
           (mkWorld (committed w') (committed w') (recipe_seq w') (faults w')
                    (console w') (events w') (S (checked_out w'))
                    (S (granted w')) (dialect w')))
    end.

(** [connection.execute(sql, binds)]: [recipe_seq.NEXTVAL] advances the
    sequence whether or not the transaction commits. *)
Definition execute (c : Connection) (stmt : Statement) : M Result :=
  fun w =>
    match next_fault w with
    | (Some err, w') => (Thrown err, record_event (EvExecute c stmt false) w')
    | (None, w') =>
        match run (dialect w') stmt (recipe_seq w') (session w') with
        | None =>
            (Thrown (DbError "invalid statement"),
             record_event (EvExecute c stmt false) w')
        | Some (res, db) =>
            let seq := match stmt with
                       | InsertRecipe _ _ _ _ => recipe_seq w' + 1
                       | _ => recipe_seq w'
                       end in
            (Returned res,
             record_event (EvExecute c stmt true)
               (mkWorld (committed w') db seq (faults w') (console w')
                        (events w') (checked_out w') (granted w') (dialect w')))
        end
    end.

(** [connection.commit()] *)
Definition commit (c : Connection) : M unit :=
  fun w =>
    match next_fault w with
    | (Some err, w') => (Thrown err, record_event (EvCommit c false) w')
    | (None, w') =>
        (Returned tt,
         record_event (EvCommit c true)
           (mkWorld (session w') (session w') (recipe_seq w') (faults w')
                    (console w') (events w') (checked_out w') (granted w') (dialect w')))
    end.

(** [connection.close()]: gives the connection back to the pool; what the
    session did not commit is rolled back. *)
Definition close (c : Connection) : M unit :=
  fun w =>
    match next_fault w with
    | (Some err, w') => (Thrown err, record_event (EvClose c false) w')
    | (None, w') =>
        (Returned tt,
         record_event (EvClose c true)
           (mkWorld (committed w') (committed w') (recipe_seq w') (faults w')
                    (console w') (events w') (pred (checked_out w'))
                    (granted w') (dialect w')))
    end.

(** ** [appService.js] *)

(** [withOracleDB(action)]: [connection] is the local variable the [try]
    block assigns and the [finally] block tests. *)
Definition withOracleDB {A} (action : Connection -> M A) : M A :=
  fun w =>
    let '(completion, connection, w1) :=
      match getConnection w with
      | (Returned c, w0) =>
          match action c w0 with
          | (Returned a, w1) => (Returned a, Some c, w1)
          | (Thrown err, w1) =>
              (Thrown err, Some c, snd (console_error err w1))
          end
      | (Thrown err, w0) => (Thrown err, None, snd (console_error err w0))
      end in
    match connection with
    | Some c =>
        match close c w1 with
        | (Returned _, w2) => (completion, w2)
        | (Thrown err, w2) => (completion, snd (console_error err w2))
        end
    | None => (completion, w1)
    end.

Definition testOracleConnection : M bool :=
  promise_catch
    (withOracleDB (fun connection => ret true))
    (fun _ => ret false).

Definition fetchAllLocations : M (list Row) :=
  promise_catch
    (withOracleDB (fun connection =>
       result <- execute connection SelectLocations ;;
       ret (rows result)))
    (fun err => console_error err ;;; ret []).

Definition fetchAllRecipes : M (list Row) :=
  promise_catch
    (withOracleDB (fun connection =>
       result <- execute connection SelectAllRecipes ;;
       ret (rows result)))
    (fun err => console_error err ;;; ret []).

Definition fetchLikedRecipes : M (list Row) :=
  promise_catch
    (withOracleDB (fun connection =>
       result <- execute connection SelectLikedRecipes ;;
       ret (rows result)))
    (fun err => console_error err ;;; ret []).

(** The body of [POST /recipe] and of [PUT /recipe/:id]. *)
Record RecipeInput : Type := mkRecipeInput
  { in_RecipeName : string; in_Cuisine : string;
    in_CookingTime : string; in_UserID : Z }.

(** [result.outBinds.recipeID[0]]: reading index 0 of an empty array
    gives [undefined]. *)
Definition first_outBind (result : Result) : JsVal :=
  match outBinds result with
  | n :: _ => JNum n
  | [] => JUndefined
  end.

Definition createRecipe (recipe : RecipeInput) : M JsVal :=
  promise_catch
    (withOracleDB (fun connection =>
       result <- execute connection
                   (InsertRecipe (in_RecipeName recipe) (in_Cuisine recipe)
                                 (in_CookingTime recipe) (in_UserID recipe)) ;;
       commit connection ;;;
       ret (first_outBind result)))
    (fun err => console_error err ;;; ret JNull).

Definition deleteRecipe (recipeID : string) : M Z :=
  promise_catch
    (withOracleDB (fun connection =>
       result <- execute connection (DeleteRecipe recipeID) ;;
       commit connection ;;;
       ret (rowsAffected result)))
    (fun err => console_error err ;;; ret 0).

Definition fetchUser (UserID : string) : M (list Row) :=
  promise_catch
    (withOracleDB (fun connection =>
       result <- execute connection (SelectUser UserID) ;;
       ret (rows result)))
    (fun _ => ret []).

(** [fetchAllUsers(UserID)] declares a parameter that its body never
    reads. *)
Definition fetchAllUsers {X : Type} (UserID : X) : M (list Row) :=
  promise_catch
    (withOracleDB (fun connection =>
       result <- execute connection SelectAllUsers ;;
       ret (rows result)))
    (fun _ => ret []).

Definition fetchPantries (UserID : string) : M (list Row) :=
  promise_catch
    (withOracleDB (fun connection =>
       result <- execute connection (SelectPantries UserID) ;;
       ret (rows result)))
    (fun _ => ret []).

Definition fetchRecipeByID (RecipeID : string) : M (list Row) :=
  promise_catch
    (withOracleDB (fun connection =>
       result <- execute connection (SelectRecipeByID RecipeID) ;;
       ret (rows result)))
    (fun err => console_error err ;;; ret []).

Definition updateRecipe (recipe : RecipeInput * string) : M Z :=
  promise_catch
    (withOracleDB (fun connection =>
       result <- execute connection
                   (UpdateRecipe (in_RecipeName (fst recipe))
                                 (in_Cuisine (fst recipe))
                                 (in_CookingTime (fst recipe))
                                 (in_UserID (fst recipe))
                                 (snd recipe)) ;;
       commit connection ;;;
       ret (rowsAffected result)))
    (fun err => console_error err ;;; ret 0).

(** [module.exports]: the names under which the controller reaches the
    functions of this file. *)
Definition module_exports : list string :=
  ["fetchUser"; "fetchAllUsers"; "fetchPantries"; "testOracleConnection";
   "fetchAllRecipes"; "fetchRecipeByID"; "createRecipe"; "updateRecipe";
   "deleteRecipe"; "fetchAllLocations"; "fetchLikedRecipes"].

(** ** Executors the handlers call that [appService.js] does not define *)

Module SpecModel.

(** Modelled from the spec: [fetchRecipes], which the route [GET /recipes]
    calls and [appService.js] neither defines nor exports.  Section 4.2:
    "builds a SELECT whose column list defaults to a fixed set of recipe
    attributes, optionally narrowed to the caller-specified column list;
    optionally joins images and filters to rows lacking captions;
    optionally restricts to a single RecipeID or a cuisine equal to
    cuisineFilter.  Returns an ordered sequence of rows (order by
    RecipeID); returns an empty sequence on no match or on query
    failure", in the shape section 4.2 gives every executor. *)
Definition fetchRecipes (columns : option (list string))
    (cuisineFilter : option string) (id : option Z)
    (includeImages captionless : bool) : M (list Row) :=
  promise_catch
    (withOracleDB (fun connection =>
       result <- execute connection
                   (SelectRecipes columns cuisineFilter id includeImages
                                  captionless) ;;
       ret (rows result)))
    (fun err => console_error err ;;; ret []).

(** Modelled from the spec: [insertStep], which the route
    [POST /steps/:id] calls and [appService.js] neither defines nor
    exports.  Section 4.2: "inserts one Step row", with "an explicit
    commit for any statement with side effects" and "a mapping from the
    failure case to a safe default ([...] null/zero for scalar
    operations)". *)
Definition insertStep (stepNumber : Z) (instruction : string)
                      (recipeID : string) : M JsVal :=
  promise_catch
    (withOracleDB (fun connection =>
       result <- execute connection
                   (InsertStep stepNumber instruction recipeID) ;;
       commit connection ;;;
       ret (JNum (rowsAffected result))))
    (fun err => console_error err ;;; ret (JNum 0)).

End SpecModel.

(** ** [appController.js] *)

Inductive Method : Type := GET | POST | PUT | DELETE.

Definition method_eqb (a b : Method) : bool :=
  match a, b with
  | GET, GET | POST, POST | PUT, PUT | DELETE, DELETE => true
  | _, _ => false
  end.

(** The JSON objects and the texts the handlers send. *)
Inductive Body : Type :=
| BodyError (error : string)
| BodyData (data : list Row)
| BodyMessage (message : string)
| BodyMessageResponse (message : string) (response : JsVal)
| BodyText (text : string).

Record Response : Type := mkResponse { status : Z; body : Body }.

(** [res.json(b)], [res.status(code).json(b)] and [res.send(text)]. *)
Definition json (b : Body) : Response := mkResponse 200 b.
Definition status_json (code : Z) (b : Body) : Response := mkResponse code b.
Definition send (text : string) : Response := mkResponse 200 (BodyText text).

(** A value of [req.query]: absent, a text or, for a parameter that is
    repeated or written with brackets, an array or an object. *)
#[warnings="-register-all"]
Inductive QueryValue : Type :=
| QAbsent
| QText (s : string)
| QArray (items : list QueryValue)
| QObject (fields : list (string * QueryValue)).

(** ToBoolean of a query value: arrays and objects are truthy. *)
Definition query_truthy (q : QueryValue) : bool :=
  match q with
  | QAbsent => false
  | QText s => truthy (JStr s)
  | QArray _ | QObject _ => true
  end.

(** A request as the handlers read it.  [req_route] is the pattern the path
    matches and [params_id] the text of its [:id], as it stands in the
    path; the body fields are those the handlers of the bodies read. *)
Record Request : Type := mkRequest
  { req_method : Method;
    req_route : string;
    params_id : string;
    query_columns : QueryValue;
    query_filter : QueryValue;
    query_id : QueryValue;
    query_img : QueryValue;
    query_captionless : QueryValue;
    body_recipe : RecipeInput;
    body_steps : list string;
    body_UserName : string }.

(** [s.split(',')] *)
Fixpoint split (sep : Ascii.ascii) (s : string) : list string :=
  match s with
  | EmptyString => [EmptyString]
  | String c s' =>
      if Ascii.eqb c sep then EmptyString :: split sep s'
      else match split sep s' with
           | [] => [String c EmptyString]
           | piece :: pieces => String c piece :: pieces
           end
  end.

Definition comma : Ascii.ascii := Ascii.ascii_of_nat 44.

(** [req.query.columns ? req.query.columns.split(',') : null]: an array
    and an object are truthy and have no [split], so the call throws. *)
Definition columns_of (q : QueryValue) : M (option (list string)) :=
  match q with
  | QAbsent => ret None
  | QText s => if truthy (JStr s) then ret (Some (split comma s)) else ret None
  | QArray _ | QObject _ =>
      throw (TypeError "req.query.columns.split is not a function")
  end.

(** [req.query.filter || null]; [None] is [null]. *)
Definition or_null (q : QueryValue) : option QueryValue :=
  if query_truthy q then Some q else None.

(** A call that passes more arguments than the callee declares: the
    surplus argument is evaluated and bound to nothing. *)
Definition surplus {A X : Type} (call : A) (extra : X) : A := call.

Record Route : Type := mkRoute
  { route_method : Method;
    route_path : string;
    route_handler : Request -> M Response }.

(** The first registered route of the method and path runs; none of the
    handlers passes the request on. *)
Fixpoint dispatch (routes : list Route) (req : Request) : option (M Response) :=
  match routes with
  | [] => None
  | r :: routes' =>
      if method_eqb (route_method r) (req_method req)
         && (route_path r =? req_route req)%string
      then Some (route_handler r req)
      else dispatch routes' req
  end.

(** The members of [appService] the handlers call, in the order of the
    file. *)
Definition called_members : list string :=
  ["testOracleConnection"; "fetchRecipes"; "fetchRecipeByID";
   "fetchLikedRecipes"; "fetchUserLikedRecipes"; "createRecipe";
   "deleteRecipe"; "fetchRecipeSteps"; "fetchImagesByID"; "insertStep";
   "fetchUser"; "fetchAllUsers"; "createUser"; "fetchPantries";
   "updateRecipe"; "deleteRecipe"; "fetchAllLocations"].

Definition exported (name : string) : bool :=
  existsb (String.eqb name) module_exports.

Section Controller.

(** The executors of [appService] that the handlers call and the module
    does not export, and the coercion of [captionless == 1]. *)
Variable fetchRecipes :
  option (list string) -> option QueryValue -> option QueryValue ->
  QueryValue -> QueryValue -> M (list Row).
Variable fetchUserLikedRecipes : string -> M (list Row).
Variable fetchRecipeSteps : string -> M (list Row).
Variable fetchImagesByID : string -> bool -> M (list Row).
Variable insertStep : Z -> string -> string -> M JsVal.
Variable createUser : string -> M JsVal.
Variable ToNumber : QueryValue -> option Z.

Definition get_check_db_connection (req : Request) : M Response :=
  isConnect <- testOracleConnection ;;
  if isConnect then ret (send "connected")
  else ret (send "unable to connect").

Definition get_test (req : Request) : M Response :=
  ret (send "Hello world!").

Definition get_recipes (req : Request) : M Response :=
  columns <- columns_of (query_columns req) ;;
  let filter := or_null (query_filter req) in
  let id := or_null (query_id req) in
  let img := query_img req in
  let captionless := query_captionless req in
  recipes <- fetchRecipes columns filter id img captionless ;;
  if (List.length recipes =? 0)%nat
  then ret (status_json 404 (BodyError "No recipes found"))
  else ret (json (BodyData recipes)).

Definition get_recipe (req : Request) : M Response :=
  let RecipeID := params_id req in
  recipe <- fetchRecipeByID RecipeID ;;
  if (List.length recipe =? 0)%nat
  then ret (status_json 404 (BodyError "Recipe not found"))
  else ret (json (BodyData recipe)).

Definition get_recipes_liked (req : Request) : M Response :=
  recipes <- fetchLikedRecipes ;;
  if (List.length recipes =? 0)%nat
  then ret (status_json 404 (BodyError "No liked recipes found"))
  else ret (json (BodyData recipes)).

Definition get_recipes_liked_by (req : Request) : M Response :=
  let UserID := params_id req in
  recipes <- fetchUserLikedRecipes UserID ;;
  if (List.length recipes =? 0)%nat
  then ret (status_json 404 (BodyError "No liked recipes found"))
  else ret (json (BodyData recipes)).

Definition post_recipe (req : Request) : M Response :=
  let recipe := body_recipe req in
  response <- createRecipe recipe ;;
  if truthy response
  then ret (status_json 201 (BodyMessageResponse "Recipe created" response))
  else ret (status_json 500 (BodyError "Failed to create recipe")).

(** The first of the two handlers registered for [DELETE /recipe/:id]. *)
Definition delete_recipe_first (req : Request) : M Response :=
  let recipeID := params_id req in
  rowsAffected <- deleteRecipe recipeID ;;
  if rowsAffected >? 0
  then ret (json (BodyMessage "Recipe deleted"))
  else ret (status_json 404 (BodyError "Recipe not found or not deleted")).

Definition get_recipe_steps (req : Request) : M Response :=
  let RecipeID := params_id req in
  steps <- fetchRecipeSteps RecipeID ;;
  if (List.length steps =? 0)%nat
  then ret (status_json 404 (BodyError "No steps found for this recipe"))
  else ret (json (BodyData steps)).

(** [req.query.captionless == 1]: [undefined] equals no number; any other
    value is compared after its conversion to a number. *)
Definition equals_one (q : QueryValue) : bool :=
  match q with
  | QAbsent => false
  | _ => match ToNumber q with Some n => n =? 1 | None => false end
  end.

Definition get_images (req : Request) : M Response :=
  let captionless := equals_one (query_captionless req) in
  let RecipeID := params_id req in
  images <- fetchImagesByID RecipeID captionless ;;
  if (List.length images =? 0)%nat
  then ret (status_json 404 (BodyError "Images not found"))
  else ret (json (BodyData images)).

(** The loop of [POST /steps/:id] from index [i] on, over the steps that
    remain; it yields the value [success] has when the loop is left. *)
Fixpoint insert_from (i : nat) (steps : list string) (recipeID : string)
  : M bool :=
  match steps with
  | [] => ret true
  | step :: steps' =>
      response <- insertStep (Z.of_nat i + 1) step recipeID ;;
      console_log response ;;;
      if negb (truthy response) then ret false
      else insert_from (S i) steps' recipeID
  end.

Definition post_steps (req : Request) : M Response :=
  let recipeID := params_id req in
  let steps := body_steps req in
  success <- insert_from 0 steps recipeID ;;
  if success
  then ret (status_json 201 (BodyMessage "Steps inserted successfully"))
  else ret (status_json 500 (BodyError "Failed to insert all steps")).

Definition get_user (req : Request) : M Response :=
  columns <- columns_of (query_columns req) ;;
  let UserID := params_id req in
  tableContent <- surplus (fetchUser UserID) columns ;;
  ret (json (BodyData tableContent)).

Definition get_users (req : Request) : M Response :=
  columns <- columns_of (query_columns req) ;;
  tableContent <- fetchAllUsers columns ;;
  ret (json (BodyData tableContent)).

Definition post_user (req : Request) : M Response :=
  let Username := body_UserName req in
  response <- createUser Username ;;
  if truthy response
  then ret (status_json 201 (BodyMessageResponse "User created" response))
  else ret (status_json 500 (BodyError "Failed to create new user")).

Definition get_pantry (req : Request) : M Response :=
  let UserID := params_id req in
  tableContent <- fetchPantries UserID ;;
  ret (json (BodyData tableContent)).

Definition put_recipe (req : Request) : M Response :=
  let RecipeID := params_id req in
  let recipe := (body_recipe req, RecipeID) in
  rowsAffected <- updateRecipe recipe ;;
  if rowsAffected >? 0
  then ret (json (BodyMessage "Recipe updated"))
  else ret (status_json 404 (BodyError "Recipe not found or not updated")).

(** The second handler registered for [DELETE /recipe/:id]. *)
Definition delete_recipe_second (req : Request) : M Response :=
  let RecipeID := params_id req in
  rowsAffected <- deleteRecipe RecipeID ;;
  if rowsAffected >? 0
  then ret (json (BodyMessage "Recipe deleted"))
  else ret (status_json 404 (BodyError "Recipe not found or not deleted")).

Definition get_locations (req : Request) : M Response :=
  locations <- fetchAllLocations ;;
  if (List.length locations =? 0)%nat
  then ret (status_json 404 (BodyError "No locations found"))
  else ret (json (BodyData locations)).

(** The registrations, in the order of the file. *)
Definition router : list Route :=
  [ mkRoute GET "/check-db-connection" get_check_db_connection;
    mkRoute GET "/test" get_test;
    mkRoute GET "/recipes" get_recipes;
    mkRoute GET "/recipe/:id" get_recipe;
    mkRoute GET "/recipes/liked" get_recipes_liked;
    mkRoute GET "/recipes/liked/:id" get_recipes_liked_by;
    mkRoute POST "/recipe" post_recipe;
    mkRoute DELETE "/recipe/:id" delete_recipe_first;
    mkRoute GET "/recipe/:id/steps" get_recipe_steps;
    mkRoute GET "/images/:id" get_images;
    mkRoute POST "/steps/:id" post_steps;
    mkRoute GET "/user/:id" get_user;
    mkRoute GET "/users" get_users;
    mkRoute POST "/user" post_user;
    mkRoute GET "/pantry/:id" get_pantry;
    mkRoute PUT "/recipe/:id" put_recipe;
    mkRoute DELETE "/recipe/:id" delete_recipe_second;
    mkRoute GET "/locations" get_locations ].

(** The same registrations without the second [DELETE /recipe/:id]. *)
Definition router_without_second_delete : list Route :=
  [ mkRoute GET "/check-db-connection" get_check_db_connection;
    mkRoute GET "/test" get_test;
    mkRoute GET "/recipes" get_recipes;
    mkRoute GET "/recipe/:id" get_recipe;
    mkRoute GET "/recipes/liked" get_recipes_liked;
    mkRoute GET "/recipes/liked/:id" get_recipes_liked_by;
    mkRoute POST "/recipe" post_recipe;
    mkRoute DELETE "/recipe/:id" delete_recipe_first;
    mkRoute GET "/recipe/:id/steps" get_recipe_steps;
    mkRoute GET "/images/:id" get_images;
    mkRoute POST "/steps/:id" post_steps;
    mkRoute GET "/user/:id" get_user;
    mkRoute GET "/users" get_users;
    mkRoute POST "/user" post_user;
    mkRoute GET "/pantry/:id" get_pantry;
    mkRoute PUT "/recipe/:id" put_recipe;
    mkRoute GET "/locations" get_locations ].

(** The same registrations without the first [DELETE /recipe/:id]. *)
Definition router_without_first_delete : list Route :=
  [ mkRoute GET "/check-db-connection" get_check_db_connection;
    mkRoute GET "/test" get_test;
    mkRoute GET "/recipes" get_recipes;
    mkRoute GET "/recipe/:id" get_recipe;
    mkRoute GET "/recipes/liked" get_recipes_liked;
    mkRoute GET "/recipes/liked/:id" get_recipes_liked_by;
    mkRoute POST "/recipe" post_recipe;
    mkRoute GET "/recipe/:id/steps" get_recipe_steps;
    mkRoute GET "/images/:id" get_images;
    mkRoute POST "/steps/:id" post_steps;
    mkRoute GET "/user/:id" get_user;
    mkRoute GET "/users" get_users;
    mkRoute POST "/user" post_user;
    mkRoute GET "/pantry/:id" get_pantry;
    mkRoute PUT "/recipe/:id" put_recipe;
    mkRoute DELETE "/recipe/:id" delete_recipe_second;
    mkRoute GET "/locations" get_locations ].

End Controller.

(** * Specification predicates *)

(** What [console.error] has printed for a completion. *)
Definition error_log {A} (completion : Outcome A) : list LogEntry :=
  match completion with
  | Returned _ => []
  | Thrown err => [LogError err]
  end.

(** [w'] is [w1] after one call of [close] on [c]: the call is the last
    driver event; when it succeeds the connection is back in the pool, and
    when it fails its error is printed after [printed] and nothing else
    happens. *)
Definition closed_after (c : Connection) (printed : list LogEntry)
                        (w1 w' : World) : Prop :=
  match faults w1 with
  | Some err :: _ =>
      events w' = (events w1 ++ [EvClose c false])%list /\
      console w' = (console w1 ++ printed ++ [LogError err])%list /\
      checked_out w' = checked_out w1
  | _ =>
      events w' = (events w1 ++ [EvClose c true])%list /\
      console w' = (console w1 ++ printed)%list /\
      checked_out w' = pred (checked_out w1)
  end.


(** The world at the start of the process, over given tables and given
    outcomes of the driver calls to come. *)
Definition empty_database : Database :=
  mkDatabase [] [] [] [] [] [] [] [] [] [] [].

(** A database that takes decimal numerals only for numbers and rejects
    every statement into which another text has been spliced. *)
Definition plain_dialect : Dialect :=
  mkDialect (fun _ => NotANumber) (fun _ _ => None).

Definition boot (db : Database) (fs : list (option Error)) : World :=
  mkWorld db db 1 fs [] [] 0 0 plain_dialect.

(** [w], with [fs] as the outcomes of the next driver calls. *)
Definition with_faults (fs : list (option Error)) (w : World) : World :=
  mkWorld (committed w) (session w) (recipe_seq w) (fs ++ faults w)
          (console w) (events w) (checked_out w) (granted w) (dialect w).

(** An executor completes by returning in every world, and returns [d]
    when the acquisition of the connection fails and when the execution
    of its statement fails. *)
Definition safe_default {A} (executor : M A) (d : A) : Prop :=
  (forall w, exists a, fst (executor w) = Returned a) /\
  (forall err w, fst (executor (with_faults [Some err] w)) = Returned d) /\
  (forall err w, fst (executor (with_faults [None; Some err] w)) = Returned d).

(** [p] is the tier of [points]: a tier of [User1] whose threshold is the
    greatest that does not exceed [points]. *)
Definition rank_tier (db : Database) (points : Z) (p : Tier) : Prop :=
  In p (User1 db) /\
  tier_Points p <= points /\
  forall t, In t (User1 db) -> tier_Points t <= points ->
            tier_Points t <= tier_Points p.


(** Sample tables: three tiers, three users, two recipes, one of them with
    two images. *)
Definition sample_database : Database :=
  mkDatabase
    [mkLocation "2075 Wesbrook Mall" "Vancouver" "BC" "Market"]
    [mkRecipe 9 "Moussaka" "Greek" "01:15:00" 2;
     mkRecipe 7 "Pasta Verde" "Italian" "00:30:00" 3]
    [mkCuisineLevel "Greek" "Hard"; mkCuisineLevel "Italian" "Easy"]
    [mkCreator 2 "Bob"; mkCreator 3 "Cy"]
    [mkUser 1 "Ann" 100; mkUser 2 "Bob" 499; mkUser 3 "Cy" 0]
    [mkTier 0 "Bronze"; mkTier 100 "Silver"; mkTier 500 "Gold"]
    [mkRecipeLike 1 7 1]
    [mkUserPantry 1 4]
    [mkPantry 4 "Baking"]
    [mkImage 7 "pasta.png" (Some "Fresh from the pan"); mkImage 7 "plate.png" None]
    [].

(** Handlers and routers as the client sees them: the response only. *)
Definition answer (handler : Request -> M Response) (req : Request)
                  (w : World) : Outcome Response :=
  fst (handler req w).

Definition serve (routes : list Route) (req : Request) (w : World)
  : option (Outcome Response * World) :=
  match dispatch routes req with
  | Some run_handler => Some (run_handler w)
  | None => None
  end.

(** [handler] answers [r] whenever the acquisition of the connection, the
    execution of the statement or the commit fails. *)
Definition answers_on_failure (handler : Request -> M Response)
                              (r : Response) : Prop :=
  forall req err w,
    answer handler req (with_faults [Some err] w) = Returned r /\
    answer handler req (with_faults [None; Some err] w) = Returned r /\
    answer handler req (with_faults [None; None; Some err] w) = Returned r.

(** [handler] answers with status 500 whenever its executor has caught an
    error. *)
Definition answers_500_on_failure (handler : Request -> M Response) : Prop :=
  forall req err w,
  exists r, answer handler req (with_faults [Some err] w) = Returned r /\
            status r = 500.

Definition request (method : Method) (route : string) (id : string)
  : Request :=
  mkRequest method route id QAbsent QAbsent QAbsent QAbsent QAbsent
            (mkRecipeInput "" "" "" 0) [] "".

(** A query parameter that is absent or a text. *)
Definition text_or_absent (q : option string) : QueryValue :=
  match q with
  | Some s => QText s
  | None => QAbsent
  end.

Definition with_columns (columns : QueryValue) (req : Request) : Request :=
  mkRequest (req_method req) (req_route req) (params_id req) columns
            (query_filter req) (query_id req) (query_img req)
            (query_captionless req) (body_recipe req) (body_steps req)
            (body_UserName req).

Definition with_steps (steps : list string) (req : Request) : Request :=
  mkRequest (req_method req) (req_route req) (params_id req)
            (query_columns req) (query_filter req) (query_id req)
            (query_img req) (query_captionless req) (body_recipe req) steps
            (body_UserName req).

(** *** The calls of [POST /steps/:id] *)

(** The instructions with the step numbers the loop gives them when it
    starts at index [i]. *)
Fixpoint numbered_from (i : nat) (steps : list string) : list (Z * string) :=
  match steps with
  | [] => []
  | step :: steps' => (Z.of_nat i + 1, step) :: numbered_from (S i) steps'
  end.

Section StepCalls.
Variable insertStep : Z -> string -> string -> M JsVal.
Variable recipeID : string.

(** One call of [insertStep], its response printed. *)
Definition step_call (call : Z * string) : M JsVal :=
  response <- insertStep (fst call) (snd call) recipeID ;;
  console_log response ;;;
  ret response.

(** The calls made one after the other, whatever they answer: their
    completions and the world they leave. *)
Fixpoint run_calls (calls : list (Z * string)) (w : World)
  : list (Outcome JsVal) * World :=
  match calls with
  | [] => ([], w)
  | call :: calls' =>
      let '(r, w1) := step_call call w in
      let '(rs, w2) := run_calls calls' w1 in
      (r :: rs, w2)
  end.
End StepCalls.

Definition succeeded (r : Outcome JsVal) : bool :=
  match r with
  | Returned v => truthy v
  | Thrown _ => false
  end.

(** What the handler of [POST /steps/:id] completes with, given the
    completions of the calls it made. *)
Definition steps_verdict (responses : list (Outcome JsVal))
  : Outcome Response :=
  if forallb succeeded responses
  then Returned (status_json 201 (BodyMessage "Steps inserted successfully"))
  else match last responses (Returned JNull) with
       | Thrown err => Thrown err
       | Returned _ =>
           Returned (status_json 500 (BodyError "Failed to insert all steps"))
       end.

(** * Process lifecycle of [appService.js] *)

Record PoolConfig : Type := mkPoolConfig
  { poolMin : nat; poolMax : nat; poolIncrement : nat; poolTimeout : nat }.

(** [dbConfig], without the credentials and the connect string read from
    the environment file. *)
Definition dbConfig : PoolConfig := mkPoolConfig 1 3 1 60.

(** The process: the world, the default pool of the driver when there is
    one, and the status the process has exited with when it has. *)
Record Process : Type := mkProcess
  { world : World; pool : option PoolConfig; exit_code : option Z }.

(** [err.message] *)
Definition err_message (err : Error) : string :=
  match err with
  | DbError message => message
  | TypeError message => message
  end.

Definition print (text : string) (p : Process) : Process :=
  mkProcess (write_console (LogText text) (world p)) (pool p) (exit_code p).

(** [process.exit(code)] *)
Definition process_exit (code : Z) (p : Process) : Process :=
  mkProcess (world p) (pool p) (Some code).

(** [oracledb.createPool(config)] *)
Definition createPool (config : PoolConfig) (p : Process)
  : Outcome unit * Process :=
  match next_fault (world p) with
  | (Some err, w') => (Thrown err, mkProcess w' (pool p) (exit_code p))
  | (None, w') => (Returned tt, mkProcess w' (Some config) (exit_code p))
  end.

(** [oracledb.getPool().close(10)]: [getPool] throws when the process has
    no default pool. *)
Definition close_pool (p : Process) : Outcome unit * Process :=
  match pool p with
  | None => (Thrown (DbError "NJS-047"), p)
  | Some _ =>
      match next_fault (world p) with
      | (Some err, w') => (Thrown err, mkProcess w' (pool p) (exit_code p))
      | (None, w') => (Returned tt, mkProcess w' None (exit_code p))
      end
  end.

Definition initializeConnectionPool (p : Process) : Process :=
  match createPool dbConfig p with
  | (Returned _, p1) => print "Connection pool started" p1
  | (Thrown err, p1) =>
      print ("Initialization error: " ++ err_message err) p1
  end.

Definition newline : string := String (Ascii.ascii_of_nat 10) EmptyString.

Definition closePoolAndExit (p : Process) : Process :=
  let p0 := print (newline ++ "Terminating") p in
  match close_pool p0 with
  | (Returned _, p1) => process_exit 0 (print "Pool closed" p1)
  | (Thrown err, p1) => process_exit 1 (print (err_message err) p1)
  end.

(** * Further specification predicates *)

(** The first column of a row, when it is a number. *)
Definition first_number (row : Row) : Z :=
  match row with
  | VNum n :: _ => n
  | _ => 0
  end.

(** The order of [ORDER BY City, Street]. *)
Definition location_le (a b : Location) : Prop :=
  String.leb (City a) (City b) = true /\
  (City a = City b -> String.leb (Street a) (Street b) = true).

(** The row [fetchRecipeByID] returns for a recipe and its creator. *)
Definition recipe_row (r : Recipe) (u : Creator) : Row :=
  [VNum (RecipeID r); VStr (RecipeName r); VStr (Cuisine r);
   VStr (CookingTime r); VStr (creator_UserName u)].

Definition recipe_of (id : Z) (recipe : RecipeInput) : Recipe :=
  mkRecipe id (in_RecipeName recipe) (in_Cuisine recipe)
           (in_CookingTime recipe) (in_UserID recipe).

(** A handler that leaves the committed tables and the sequence alone. *)
Definition read_only (handler : Request -> M Response) : Prop :=
  forall req w,
    committed (snd (handler req w)) = committed w /\
    recipe_seq (snd (handler req w)) = recipe_seq w.

(** What a handler answers when the connection cannot be acquired and
    when its statement fails to execute. *)
Definition answers_on_read_failure (handler : Request -> M Response)
                                   (r : Response) : Prop :=
  forall req err w,
    answer handler req (with_faults [Some err] w) = Returned r /\
    answer handler req (with_faults [None; Some err] w) = Returned r.

(** The row [fetchLikedRecipes] returns for a like, the recipe liked and
    the creator of the recipe. *)
Definition liked_row (rl : RecipeLike) (rc : Recipe) (u : Creator) : Row :=
  [VNum (like_RecipeID rl); VStr (RecipeName rc); VStr (Cuisine rc);
   VStr (CookingTime rc); VStr (creator_UserName u)].

Definition liked_by_someone (db : Database) (row : Row) : Prop :=
  exists rl rc u,
    In rl (RecipesLiked db) /\ Liked rl = 1 /\
    In rc (RecipeCreated2 db) /\ RecipeID rc = like_RecipeID rl /\
    In u (Users2 db) /\ creator_UserID u = UserID rc /\
    row = liked_row rl rc u.

(** No recipe has the id the database reads in [text]: it reads an integer
    that is the id of no recipe, or a number that is no integer. *)
Definition no_row_matches (text : string) (w : World) : Prop :=
  match read_bind (dialect w) text with
  | Integer id => count_matching id (RecipeCreated2 (committed w)) = 0
  | NoInteger => True
  | NotANumber => False
  end.

(** [handler] answers [r] when the driver reports no failure and no recipe
    has the id the database reads in the path. *)
Definition answers_when_no_row_matches (handler : Request -> M Response)
                                       (r : Response) : Prop :=
  forall req w,
    faults w = [] ->
    no_row_matches (params_id req) w ->
    answer handler req w = Returned r.

(** The responses of [handler] do not depend on the value of the
    [columns] query parameter. *)
Definition columns_have_no_effect (handler : Request -> M Response) : Prop :=
  forall (req : Request) (columns1 columns2 : QueryValue) (w : World),
    handler (with_columns columns1 req) w
    = handler (with_columns columns2 req) w.

(** * Properties *)

(** ** The connection wrapper *)

Lemma getConnection_cases (w : World) :
  (exists err fs, faults w = Some err :: fs /\
                  fst (getConnection w) = Thrown err) \/
  (exists c w0, getConnection w = (Returned c, w0) /\
                session w0 = committed w /\ committed w0 = committed w /\
                faults w0 = tl (faults w)).
Proof.
  unfold getConnection, next_fault.
  destruct (faults w) as [|[err|] fs] eqn:E; simpl.
  - right. eexists _, _. split; [reflexivity|]. simpl.
    rewrite E. repeat split; reflexivity.
  - left. eexists _, _. split; reflexivity.
  - right. eexists _, _. split; [reflexivity|]. simpl. repeat split; reflexivity.
Qed.

(** C6: whatever the action does once a connection is acquired -- return,
    return early or throw -- [withOracleDB] completes the way the action
    did, after exactly one [close] of that connection, made after the
    action; a failing [close] is printed and changes nothing of the
    completion. *)
Theorem withOracleDB_releases_connection :
  forall (A : Type) (action : Connection -> M A) (w w0 w1 : World)
         (c : Connection) (completion : Outcome A),
    getConnection w = (Returned c, w0) ->
    action c w0 = (completion, w1) ->
    fst (withOracleDB action w) = completion /\
    closed_after c (error_log completion) w1 (snd (withOracleDB action w)).
Proof.
  intros A action w w0 w1 c completion Hget Hact.
  unfold withOracleDB. rewrite Hget, Hact.
  unfold closed_after, close, next_fault, console_error.
  destruct completion as [a|err]; simpl;
    destruct (faults w1) as [|[e|] fs] eqn:E; simpl; rewrite ?E; simpl;
    rewrite ?app_nil_r, <- ?app_assoc; repeat split; reflexivity.
Qed.

Lemma withOracleDB_releases_connection_witness :
  let action := fun c => execute c (DeleteRecipe "7") in
  let w := boot empty_database [None; Some (DbError "ORA-02292"); Some (DbError "ORA-03113")] in
  fst (withOracleDB action w) = Thrown (DbError "ORA-02292") /\
  events (snd (withOracleDB action w))
  = [EvGetConnection (Some (mkConnection 0));
     EvExecute (mkConnection 0) (DeleteRecipe "7") false;
     EvClose (mkConnection 0) false] /\
  console (snd (withOracleDB action w))
  = [LogError (DbError "ORA-02292"); LogError (DbError "ORA-03113")].
Proof.
  intros action w.
  destruct (withOracleDB_releases_connection _ action w
              (snd (getConnection w)) (snd (action (mkConnection 0) (snd (getConnection w))))
              (mkConnection 0) (Thrown (DbError "ORA-02292"))
              eq_refl eq_refl) as [Hc Hr].
  split; [exact Hc|].
  unfold closed_after in Hr. simpl in Hr.
  destruct Hr as (He & Hl & _). split; [exact He | exact Hl].
Defined.

(** When no connection can be acquired there is none to release: the
    error is printed and propagates, and [close] is not called. *)
Lemma withOracleDB_acquisition_failure :
  forall (A : Type) (action : Connection -> M A) (w : World) (err : Error),
    withOracleDB action (with_faults [Some err] w)
    = (Thrown err,
       write_console (LogError err) (record_event (EvGetConnection None) w)).
Proof.
  intros A action w err. destruct w as [cm ss sq fs co ev ck gr dl]. reflexivity.
Qed.

(** ** The executors *)

Ltac fault_cases w :=
  destruct w as [cm ss sq fs co ev ck gr dl];
  destruct fs as [|[?|] [|[?|] [|[?|] [|[?|] ?]]]].

Ltac run_executor :=
  cbv [fst promise_catch withOracleDB bind ret getConnection execute commit
       close next_fault console_error record_event write_console with_faults
       faults committed session recipe_seq console events checked_out
       granted dialect run app snd].

(** The cases of what the database makes of a text. *)
Ltac case_texts :=
  repeat (match goal with
          | |- context [match read_bind ?d ?t with _ => _ end] =>
              let E := fresh "Eread" in destruct (read_bind d t) eqn:E
          | |- context [match decimal ?t with _ => _ end] =>
              let E := fresh "Edec" in destruct (decimal t) eqn:E
          | |- context [match splice_meaning ?d ?s ?db with _ => _ end] =>
              let E := fresh "Esplice" in
              destruct (splice_meaning d s db) eqn:E
          end; cbv beta iota zeta).

Ltac prove_safe_default :=
  repeat split; intros;
  match goal with w : World |- _ => fault_cases w end;
  run_executor; case_texts; run_executor; eauto.

Lemma fetchAllLocations_safe : safe_default fetchAllLocations [].
Proof. unfold fetchAllLocations. prove_safe_default. Qed.

Lemma fetchAllRecipes_safe : safe_default fetchAllRecipes [].
Proof. unfold fetchAllRecipes. prove_safe_default. Qed.

Lemma fetchLikedRecipes_safe : safe_default fetchLikedRecipes [].
Proof. unfold fetchLikedRecipes. prove_safe_default. Qed.

Lemma createRecipe_safe recipe : safe_default (createRecipe recipe) JNull.
Proof. unfold createRecipe. prove_safe_default. Qed.

Lemma deleteRecipe_safe recipeID : safe_default (deleteRecipe recipeID) 0.
Proof. unfold deleteRecipe. prove_safe_default. Qed.

Lemma fetchUser_safe UserID : safe_default (fetchUser UserID) [].
Proof. unfold fetchUser. prove_safe_default. Qed.

Lemma fetchAllUsers_safe (X : Type) (UserID : X) :
  safe_default (fetchAllUsers UserID) [].
Proof. unfold fetchAllUsers. prove_safe_default. Qed.

Lemma fetchPantries_safe UserID : safe_default (fetchPantries UserID) [].
Proof. unfold fetchPantries. prove_safe_default. Qed.

Lemma fetchRecipeByID_safe RecipeID :
  safe_default (fetchRecipeByID RecipeID) [].
Proof. unfold fetchRecipeByID. prove_safe_default. Qed.

Lemma updateRecipe_safe recipe : safe_default (updateRecipe recipe) 0.
Proof. unfold updateRecipe. prove_safe_default. Qed.

(** C7: every executor of [appService.js] completes by returning, in every
    world; when the connection cannot be acquired and when the statement
    fails to execute it returns its default -- the empty sequence for the
    executors that return rows, [null] for [createRecipe], [0] for
    [deleteRecipe] and [updateRecipe] -- and the three executors that
    commit do the same when the commit fails. *)
Theorem executors_return_safe_defaults :
  safe_default fetchAllLocations [] /\
  safe_default fetchAllRecipes [] /\
  safe_default fetchLikedRecipes [] /\
  (forall UserID, safe_default (fetchUser UserID) []) /\
  (forall (X : Type) (UserID : X), safe_default (fetchAllUsers UserID) []) /\
  (forall UserID, safe_default (fetchPantries UserID) []) /\
  (forall RecipeID, safe_default (fetchRecipeByID RecipeID) []) /\
  (forall recipe, safe_default (createRecipe recipe) JNull) /\
  (forall recipeID, safe_default (deleteRecipe recipeID) 0) /\
  (forall recipe, safe_default (updateRecipe recipe) 0) /\
  (forall err w recipe,
     fst (createRecipe recipe (with_faults [None; None; Some err] w))
     = Returned JNull) /\
  (forall err w recipeID,
     fst (deleteRecipe recipeID (with_faults [None; None; Some err] w))
     = Returned 0) /\
  (forall err w recipe,
     fst (updateRecipe recipe (with_faults [None; None; Some err] w))
     = Returned 0).
Proof.
  repeat match goal with |- _ /\ _ => split end;
    auto using fetchAllLocations_safe, fetchAllRecipes_safe,
      fetchLikedRecipes_safe, fetchUser_safe, fetchAllUsers_safe,
      fetchPantries_safe, fetchRecipeByID_safe, createRecipe_safe,
      deleteRecipe_safe, updateRecipe_safe;
    intros; unfold createRecipe, deleteRecipe, updateRecipe;
    fault_cases w; run_executor; case_texts; reflexivity.
Qed.

(** *** Deleting a recipe *)

Lemma count_after_delete (id : Z) (rs : list Recipe) :
  count_matching id (delete_recipe id rs) = 0.
Proof.
  unfold count_matching, delete_recipe.
  induction rs as [|r rs IH]; simpl; [reflexivity|].
  destruct (RecipeID r =? id) eqn:E; simpl; [exact IH|].
  rewrite E. exact IH.
Qed.

Lemma deleteRecipe_returns (recipeID : string) (w : World) :
  fst (deleteRecipe recipeID w) = Returned 0 \/
  exists id,
    read_bind (dialect w) recipeID = Integer id /\
    fst (deleteRecipe recipeID w)
    = Returned (count_matching id (RecipeCreated2 (committed w))).
Proof.
  unfold deleteRecipe. fault_cases w; run_executor; case_texts; eauto.
Qed.

Lemma deleteRecipe_commits (recipeID : string) (n : Z) (w w1 : World) :
  deleteRecipe recipeID w = (Returned n, w1) ->
  0 < n ->
  exists id,
    read_bind (dialect w) recipeID = Integer id /\
    RecipeCreated2 (committed w1)
    = delete_recipe id (RecipeCreated2 (committed w)) /\
    dialect w1 = dialect w.
Proof.
  unfold deleteRecipe.
  fault_cases w; run_executor; case_texts; intros H Hn; inversion H; subst;
    try lia; eauto.
Qed.

(** C8: right after a call of [deleteRecipe] that reported deleted rows,
    a second call with the same id returns 0. *)
Theorem deleteRecipe_twice_returns_zero :
  forall (id : string) (n : Z) (w w1 : World),
    deleteRecipe id w = (Returned n, w1) ->
    0 < n ->
    fst (deleteRecipe id w1) = Returned 0.
Proof.
  intros id n w w1 Hfirst Hn.
  destruct (deleteRecipe_commits id n w w1 Hfirst Hn) as (k & Hk & Hc & Hd).
  destruct (deleteRecipe_returns id w1) as [H|(k' & Hk' & H)]; [exact H|].
  rewrite Hd, Hk in Hk'. injection Hk' as <-.
  rewrite H, Hc, count_after_delete. reflexivity.
Qed.

Lemma deleteRecipe_twice_returns_zero_witness :
  let db := with_RecipeCreated2
              [mkRecipe 7 "Pasta Verde" "Italian" "00:30:00" 3] empty_database in
  let w := boot db [] in
  fst (deleteRecipe "7" w) = Returned 1 /\
  fst (deleteRecipe "7" (snd (deleteRecipe "7" w))) = Returned 0.
Proof.
  intros db w. split; [vm_compute; reflexivity|].
  apply (deleteRecipe_twice_returns_zero "7" 1 w (snd (deleteRecipe "7" w)));
    [vm_compute; reflexivity | lia].
Defined.

(** ** ORDER BY *)

Section OrderByFacts.
Context {A : Type} (leb : A -> A -> bool).

Lemma insert_by_In (x y : A) (l : list A) :
  In y (insert_by leb x l) <-> y = x \/ In y l.
Proof.
  induction l as [|z l IH]; simpl.
  - intuition.
  - destruct (leb x z); simpl; rewrite ?IH; intuition.
Qed.

Lemma order_by_In (y : A) (l : list A) :
  In y (order_by leb l) <-> In y l.
Proof.
  induction l as [|x l IH]; simpl; [reflexivity|].
  rewrite insert_by_In, IH. intuition.
Qed.
End OrderByFacts.

Section OrderByKey.
Context {A : Type} (key : A -> Z).

Let key_leb (a b : A) : bool := key a <=? key b.

Lemma insert_by_key_sorted (x : A) (l : list A) :
  StronglySorted Z.le (map key l) ->
  StronglySorted Z.le (map key (insert_by key_leb x l)).
Proof.
  induction l as [|y l IH]; simpl; intros Hs.
  - constructor; constructor.
  - apply StronglySorted_inv in Hs. destruct Hs as [Hs Hall].
    unfold key_leb at 1. destruct (key x <=? key y) eqn:E.
    + apply Z.leb_le in E. simpl. constructor.
      * constructor; assumption.
      * constructor; [exact E|].
        eapply Forall_impl; [|exact Hall]. intros; lia.
    + apply Z.leb_gt in E. simpl. constructor; [auto|].
      rewrite Forall_forall in *. intros k Hk.
      apply in_map_iff in Hk. destruct Hk as (z & <- & Hz).
      apply insert_by_In in Hz. destruct Hz as [->|Hz]; [lia|].
      apply Hall. apply in_map. exact Hz.
Qed.

Lemma order_by_key_sorted (l : list A) :
  StronglySorted Z.le (map key (order_by key_leb l)).
Proof.
  induction l as [|x l IH]; simpl; [constructor|].
  apply insert_by_key_sorted, IH.
Qed.
End OrderByKey.

(** ** Ranks *)

Lemma max_tier_points_some (tiers : list Tier) (points m : Z) :
  max_tier_points tiers points = Some m ->
  (exists t, In t tiers /\ tier_Points t = m) /\
  m <= points /\
  forall t, In t tiers -> tier_Points t <= points -> tier_Points t <= m.
Proof.
  revert m. induction tiers as [|t tiers IH]; simpl; intros m H; [discriminate|].
  destruct (tier_Points t <=? points) eqn:E.
  - apply Z.leb_le in E.
    destruct (max_tier_points tiers points) as [m'|] eqn:Em.
    + injection H as <-. destruct (IH m' eq_refl) as ((t' & Hin & Ht') & Hle & Hmax).
      repeat split.
      * destruct (Z.max_spec (tier_Points t) m') as [[_ ->]|[_ ->]];
          [exists t'; auto | exists t; auto].
      * lia.
      * intros t0 [<-|Hin0] H0; [lia|]. specialize (Hmax t0 Hin0 H0). lia.
    + injection H as <-. repeat split.
      * exists t; auto.
      * exact E.
      * intros t0 [<-|Hin0] H0; [lia|].
        exfalso. clear IH. induction tiers as [|t1 tiers IH1]; [contradiction|].
        simpl in Em. destruct (tier_Points t1 <=? points) eqn:E1.
        -- destruct (max_tier_points tiers points); discriminate.
        -- destruct Hin0 as [<-|Hin0]; [apply Z.leb_gt in E1; lia|auto].
  - apply Z.leb_gt in E. destruct (IH m H) as ((t' & Hin & Ht') & Hle & Hmax).
    repeat split; [exists t'; auto | exact Hle |].
    intros t0 [<-|Hin0] H0; [lia | auto].
Qed.

Lemma max_tier_points_none (tiers : list Tier) (points : Z) :
  max_tier_points tiers points = None ->
  forall t, In t tiers -> points < tier_Points t.
Proof.
  induction tiers as [|t1 tiers IH]; simpl; intros H t Hin; [contradiction|].
  destruct (tier_Points t1 <=? points) eqn:E.
  - destruct (max_tier_points tiers points); discriminate.
  - apply Z.leb_gt in E. destruct Hin as [<-|Hin]; auto.
Qed.

Lemma ranked_spec (db : Database) (u : User) (row : Row) :
  In row (ranked db u) <->
  exists p, rank_tier db (Points u) p /\ row = user_row u p.
Proof.
  unfold ranked, rank_tier. rewrite in_flat_map. split.
  - intros (p & Hin & Hrow).
    destruct (tier_Points p <=? Points u) eqn:E; simpl in Hrow; [|contradiction].
    destruct (max_tier_points (User1 db) (Points u)) as [m|] eqn:Em;
      [|contradiction].
    destruct (tier_Points p =? m) eqn:Ep; [|contradiction].
    destruct Hrow as [<-|[]]. apply Z.eqb_eq in Ep. apply Z.leb_le in E.
    exists p. destruct (max_tier_points_some _ _ _ Em) as (_ & _ & Hmax).
    subst m. auto.
  - intros (p & (Hin & Hle & Hmax) & ->). exists p. split; [exact Hin|].
    apply Z.leb_le in Hle as Hb. rewrite Hb. simpl.
    destruct (max_tier_points (User1 db) (Points u)) as [m|] eqn:Em.
    + destruct (max_tier_points_some _ _ _ Em) as ((t & Ht & Htm) & Hm & Hmax').
      assert (tier_Points p = m) as ->.
      { specialize (Hmax t Ht). specialize (Hmax' p Hin). lia. }
      rewrite Z.eqb_refl. left; reflexivity.
    + pose proof (max_tier_points_none _ _ Em p Hin). lia.
Qed.

Lemma select_user_spec (db : Database) (id : Z) (row : Row) :
  In row (select_user db id) <->
  exists u p, In u (User2 db) /\ UserId u = id /\
              rank_tier db (Points u) p /\ row = user_row u p.
Proof.
  unfold select_user. rewrite in_flat_map. split.
  - intros (u & Hu & Hrow). destruct (UserId u =? id) eqn:E; [|contradiction].
    apply Z.eqb_eq in E. apply ranked_spec in Hrow. destruct Hrow as (p & Hp & ->).
    exists u, p. auto.
  - intros (u & p & Hu & Hid & Hp & ->). exists u. split; [exact Hu|].
    apply Z.eqb_eq in Hid. rewrite Hid. apply ranked_spec. exists p. auto.
Qed.

Lemma select_all_users_spec (db : Database) (row : Row) :
  In row (select_all_users db) <->
  exists u p, In u (User2 db) /\ rank_tier db (Points u) p /\
              row = user_row u p.
Proof.
  unfold select_all_users. rewrite in_flat_map. split.
  - intros (u & Hu & Hrow). apply order_by_In in Hu.
    apply ranked_spec in Hrow. destruct Hrow as (p & Hp & ->). exists u, p. auto.
  - intros (u & p & Hu & Hp & ->). exists u. split; [apply order_by_In; exact Hu|].
    apply ranked_spec. exists p. auto.
Qed.

Lemma fetchUser_rows (UserID : string) (id : Z) (w : World) :
  decimal UserID = Some id ->
  faults w = [] ->
  fst (fetchUser UserID w) = Returned (select_user (committed w) id).
Proof.
  destruct w as [cm ss sq fs co ev ck gr dl]. simpl. intros Hid ->.
  unfold fetchUser. run_executor. rewrite Hid. reflexivity.
Qed.

Lemma fetchAllUsers_rows (X : Type) (arg : X) (w : World) :
  faults w = [] ->
  fst (fetchAllUsers arg w) = Returned (select_all_users (committed w)).
Proof.
  destruct w as [cm ss sq fs co ev ck gr dl]. simpl. intros ->. reflexivity.
Qed.

Lemma threshold_reached_is_rank (db : Database) (u : User) (p : Tier) :
  In p (User1 db) -> tier_Points p = Points u -> rank_tier db (Points u) p.
Proof.
  intros Hin Heq. unfold rank_tier. rewrite Heq. repeat split; auto; lia.
Qed.

Lemma fetchUser_returns (UserID : string) (id : Z) (w : World) :
  decimal UserID = Some id ->
  fst (fetchUser UserID w) = Returned [] \/
  fst (fetchUser UserID w) = Returned (select_user (committed w) id).
Proof.
  intros Hid. unfold fetchUser.
  fault_cases w; run_executor; rewrite ?Hid; auto.
Qed.

Lemma fetchAllUsers_returns (X : Type) (arg : X) (w : World) :
  fst (fetchAllUsers arg w) = Returned [] \/
  fst (fetchAllUsers arg w) = Returned (select_all_users (committed w)).
Proof. unfold fetchAllUsers. fault_cases w; run_executor; auto. Qed.

(** C4: in every world, each row [fetchUser] returns for the decimal text
    of an id is a user of that id with the level of the tier of [User1]
    whose threshold is the greatest not above the user's points, and each
    row [fetchAllUsers] returns is such a row of some user; when the
    driver reports no failure every such row is returned, and so a user
    whose points are exactly the threshold of a tier is returned with that
    tier. *)
Theorem rank_is_greatest_threshold_not_above_points :
  forall (w : World),
    let db := committed w in
    (forall UserID id rs row,
       decimal UserID = Some id ->
       fst (fetchUser UserID w) = Returned rs -> In row rs ->
       exists u p, In u (User2 db) /\ UserId u = id /\
                   rank_tier db (Points u) p /\ row = user_row u p) /\
    (forall (X : Type) (arg : X) rs row,
       fst (fetchAllUsers arg w) = Returned rs -> In row rs ->
       exists u p, In u (User2 db) /\
                   rank_tier db (Points u) p /\ row = user_row u p) /\
    (faults w = [] ->
     (forall UserID id,
        decimal UserID = Some id ->
        exists rs, fst (fetchUser UserID w) = Returned rs /\
        (forall u p, In u (User2 db) -> UserId u = id ->
                     rank_tier db (Points u) p -> In (user_row u p) rs) /\
        (forall u p, In u (User2 db) -> UserId u = id -> In p (User1 db) ->
                     tier_Points p = Points u -> In (user_row u p) rs)) /\
     (forall (X : Type) (arg : X),
        exists rs, fst (fetchAllUsers arg w) = Returned rs /\
        (forall u p, In u (User2 db) ->
                     rank_tier db (Points u) p -> In (user_row u p) rs) /\
        (forall u p, In u (User2 db) -> In p (User1 db) ->
                     tier_Points p = Points u -> In (user_row u p) rs))).
Proof.
  intros w db. split; [|split].
  - intros UserID id rs row Hid Hr Hin.
    destruct (fetchUser_returns UserID id w Hid) as [H|H]; rewrite H in Hr;
      injection Hr as <-; [contradiction|].
    apply select_user_spec. exact Hin.
  - intros X arg rs row Hr Hin.
    destruct (fetchAllUsers_returns X arg w) as [H|H]; rewrite H in Hr;
      injection Hr as <-; [contradiction|].
    apply select_all_users_spec. exact Hin.
  - intros Hf. split.
    + intros UserID id Hid. exists (select_user db id).
      split; [apply fetchUser_rows; assumption|].
      split.
      * intros u p Hu Hu' Hp. apply select_user_spec. exists u, p. auto.
      * intros u p Hu Hu' Hp Heq. apply select_user_spec. exists u, p.
        auto using threshold_reached_is_rank.
    + intros X arg. exists (select_all_users db).
      split; [apply fetchAllUsers_rows; exact Hf|]. split.
      * intros u p Hu Hp. apply select_all_users_spec. exists u, p. auto.
      * intros u p Hu Hp Heq. apply select_all_users_spec. exists u, p.
        auto using threshold_reached_is_rank.
Qed.

Lemma rank_is_greatest_threshold_not_above_points_witness :
  let w := boot sample_database [] in
  (exists rs, fst (fetchUser "1" w) = Returned rs /\
              In [VNum 1; VStr "Ann"; VNum 100; VStr "Silver"] rs) /\
  (exists rs, fst (fetchAllUsers tt w) = Returned rs /\
              In [VNum 1; VStr "Ann"; VNum 100; VStr "Silver"] rs).
Proof.
  intros w.
  destruct (rank_is_greatest_threshold_not_above_points w)
    as (_ & _ & Hcomplete).
  destruct (Hcomplete eq_refl) as [Huser Hall].
  destruct (Huser "1" 1 eq_refl) as (rs & Hr & _ & Hb).
  destruct (Hall unit tt) as (rs' & Hr' & _ & Hb').
  split.
  - exists rs. split; [exact Hr|].
    apply (Hb (mkUser 1 "Ann" 100) (mkTier 100 "Silver"));
      simpl; auto.
  - exists rs'. split; [exact Hr'|].
    apply (Hb' (mkUser 1 "Ann" 100) (mkTier 100 "Silver"));
      simpl; auto.
Defined.

(** ** [fetchRecipes], as modelled from the specification *)



Lemma StronglySorted_flat_map_key {A B : Type} (key : A -> Z) (key' : B -> Z)
      (f : A -> list B) (l : list A) :
  (forall a b, In b (f a) -> key' b = key a) ->
  StronglySorted Z.le (map key l) ->
  StronglySorted Z.le (map key' (flat_map f l)).
Proof.
  intros Hkey. induction l as [|x l IH]; simpl; intros Hs; [constructor|].
  apply StronglySorted_inv in Hs. destruct Hs as [Hs Hall].
  specialize (IH Hs). rewrite map_app.
  assert (Hx : forall b, In b (f x) -> key' b = key x) by auto.
  induction (f x) as [|b bs IHb]; simpl; [exact IH|].
  constructor; [apply IHb; intros; apply Hx; right; assumption|].
  rewrite Forall_forall. intros k Hk. rewrite <- map_app in Hk.
  apply in_map_iff in Hk. destruct Hk as (z & <- & Hz).
  rewrite (Hx b (or_introl eq_refl)).
  apply in_app_or in Hz. destruct Hz as [Hz|Hz].
  - rewrite (Hx z (or_intror Hz)). lia.
  - apply in_flat_map in Hz. destruct Hz as (a & Ha & Hz).
    rewrite (Hkey a z Hz). rewrite Forall_forall in Hall.
    apply Hall. apply in_map. exact Ha.
Qed.






(** ** The route handlers *)

(** The members of [appService] that the handlers call and the module does
    not export are the six the controller takes as parameters. *)
Lemma called_members_not_exported :
  filter (fun name => negb (exported name)) called_members
  = ["fetchRecipes"; "fetchUserLikedRecipes"; "fetchRecipeSteps";
     "fetchImagesByID"; "insertStep"; "createUser"].
Proof. reflexivity. Qed.

Ltac run_texts :=
  cbv [fst snd promise_catch withOracleDB bind ret throw getConnection execute
       commit close next_fault console_error record_event write_console
       with_faults faults committed session recipe_seq console events
       checked_out granted dialect run app answer surplus json status_json
       send select_result rows with_columns text_or_absent query_columns
       params_id columns_of truthy negb String.eqb];
  case_texts.

Ltac run_handler :=
  run_texts;
  repeat (match goal with
          | |- context [if ?c then _ else _] => destruct c
          end; cbv beta iota zeta).

(** C2 (the code answers otherwise): [GET /user/:id], [GET /users] and
    [GET /pantry/:id] answer 200 with [{data: ...}] whatever the executor
    returns, and so also for an empty result; on the same empty tables
    [GET /recipe/:id] answers 404 with [{error: ...}]. *)
Theorem user_and_pantry_routes_answer_200_when_empty :
  (forall req columns w,
     exists rs,
       answer get_user (with_columns (text_or_absent columns) req) w
       = Returned (mkResponse 200 (BodyData rs))) /\
  (forall req columns w,
     exists rs,
       answer get_users (with_columns (text_or_absent columns) req) w
       = Returned (mkResponse 200 (BodyData rs))) /\
  (forall req w,
     exists rs, answer get_pantry req w = Returned (mkResponse 200 (BodyData rs))) /\
  answer get_user (request GET "/user/:id" "999") (boot empty_database [])
  = Returned (mkResponse 200 (BodyData [])) /\
  answer get_users (request GET "/users" "0") (boot empty_database [])
  = Returned (mkResponse 200 (BodyData [])) /\
  answer get_pantry (request GET "/pantry/:id" "999") (boot empty_database [])
  = Returned (mkResponse 200 (BodyData [])) /\
  answer get_recipe (request GET "/recipe/:id" "999") (boot empty_database [])
  = Returned (mkResponse 404 (BodyError "Recipe not found")).
Proof.
  repeat match goal with |- _ /\ _ => split end;
    try (vm_compute; reflexivity);
    intros; unfold get_user, get_users, get_pantry,
      fetchUser, fetchAllUsers, fetchPantries;
    try match goal with columns : option string |- _ =>
          destruct columns as [[|? ?]|] end;
    fault_cases w; run_handler; eauto.
Qed.

Lemma post_recipe_on_failure :
  answers_on_failure post_recipe
    (mkResponse 500 (BodyError "Failed to create recipe")).
Proof.
  intros req err w. unfold post_recipe, createRecipe.
  fault_cases w; repeat split; run_texts; reflexivity.
Qed.

Lemma put_recipe_on_failure :
  answers_on_failure put_recipe
    (mkResponse 404 (BodyError "Recipe not found or not updated")).
Proof.
  intros req err w. unfold put_recipe, updateRecipe.
  fault_cases w; repeat split; run_texts; reflexivity.
Qed.

Lemma delete_recipe_first_on_failure :
  answers_on_failure delete_recipe_first
    (mkResponse 404 (BodyError "Recipe not found or not deleted")).
Proof.
  intros req err w. unfold delete_recipe_first, deleteRecipe.
  fault_cases w; repeat split; run_texts; reflexivity.
Qed.

Lemma delete_recipe_second_on_failure :
  answers_on_failure delete_recipe_second
    (mkResponse 404 (BodyError "Recipe not found or not deleted")).
Proof. exact delete_recipe_first_on_failure. Qed.

(** C3, as the claim states it, fails: a [DELETE /recipe/:id] whose
    executor caught an acquisition error is answered with 404. *)
Lemma delete_failure_is_not_answered_500 :
  ~ answers_500_on_failure delete_recipe_first.
Proof.
  intros H.
  destruct (H (request DELETE "/recipe/:id" "7") (DbError "ORA-12541")
              (boot sample_database [])) as (r & Hr & Hs).
  vm_compute in Hr. injection Hr as <-. discriminate Hs.
Qed.

Lemma put_recipe_when_no_row_matches :
  answers_when_no_row_matches put_recipe
    (mkResponse 404 (BodyError "Recipe not found or not updated")).
Proof.
  intros req w Hf Hn. destruct w as [cm ss sq fs co ev ck gr dl].
  unfold no_row_matches in Hn. simpl in Hf, Hn. subst fs.
  unfold put_recipe, updateRecipe.
  cbv [fst snd promise_catch withOracleDB bind ret getConnection execute
       commit close next_fault console_error record_event write_console
       faults committed session recipe_seq console events checked_out
       granted dialect run answer json status_json rowsAffected dml_result].
  destruct (read_bind dl (params_id req)); cbv beta iota zeta;
    [rewrite Hn; reflexivity | reflexivity | contradiction].
Qed.

Lemma delete_recipe_when_no_row_matches :
  answers_when_no_row_matches delete_recipe_first
    (mkResponse 404 (BodyError "Recipe not found or not deleted")).
Proof.
  intros req w Hf Hn. destruct w as [cm ss sq fs co ev ck gr dl].
  unfold no_row_matches in Hn. simpl in Hf, Hn. subst fs.
  unfold delete_recipe_first, deleteRecipe.
  cbv [fst snd promise_catch withOracleDB bind ret getConnection execute
       commit close next_fault console_error record_event write_console
       faults committed session recipe_seq console events checked_out
       granted dialect run answer json status_json rowsAffected dml_result].
  destruct (read_bind dl (params_id req)); cbv beta iota zeta;
    [rewrite Hn; reflexivity | reflexivity | contradiction].
Qed.

(** C3, amended: when the executor has caught an error, [POST /recipe]
    answers 500 with [{error: 'Failed to create recipe'}], while
    [PUT /recipe/:id] and both handlers of [DELETE /recipe/:id] answer 404
    with an [{error: ...}] body, which is the response they also send
    when the statement runs and no row matches. *)
Theorem mutating_routes_on_executor_failure :
  answers_on_failure post_recipe
    (mkResponse 500 (BodyError "Failed to create recipe")) /\
  answers_on_failure put_recipe
    (mkResponse 404 (BodyError "Recipe not found or not updated")) /\
  answers_on_failure delete_recipe_first
    (mkResponse 404 (BodyError "Recipe not found or not deleted")) /\
  answers_on_failure delete_recipe_second
    (mkResponse 404 (BodyError "Recipe not found or not deleted")) /\
  answers_when_no_row_matches put_recipe
    (mkResponse 404 (BodyError "Recipe not found or not updated")) /\
  answers_when_no_row_matches delete_recipe_first
    (mkResponse 404 (BodyError "Recipe not found or not deleted")) /\
  answers_when_no_row_matches delete_recipe_second
    (mkResponse 404 (BodyError "Recipe not found or not deleted")).
Proof.
  repeat match goal with |- _ /\ _ => split end;
    auto using post_recipe_on_failure, put_recipe_on_failure,
      delete_recipe_first_on_failure, delete_recipe_second_on_failure,
      put_recipe_when_no_row_matches, delete_recipe_when_no_row_matches.
Qed.

Lemma mutating_routes_on_executor_failure_witness :
  answer delete_recipe_first (request DELETE "/recipe/:id" "8")
         (boot sample_database [])
  = Returned (mkResponse 404 (BodyError "Recipe not found or not deleted")) /\
  answer delete_recipe_first (request DELETE "/recipe/:id" "7")
         (boot sample_database [Some (DbError "ORA-12541")])
  = Returned (mkResponse 404 (BodyError "Recipe not found or not deleted")).
Proof.
  destruct mutating_routes_on_executor_failure
    as (_ & _ & Hfail & _ & _ & Hnone & _).
  split.
  - apply (Hnone (request DELETE "/recipe/:id" "8")
                 (boot sample_database []));
      vm_compute; reflexivity.
  - apply (Hfail (request DELETE "/recipe/:id" "7") (DbError "ORA-12541")
                 (boot sample_database [])).
Defined.

(** C9, as the claim states it, fails: for a repeated [columns] parameter,
    which reaches the handler as an array, [GET /user/:id] throws a
    TypeError where it answers 200 for a text. *)
Lemma columns_array_changes_the_outcome :
  ~ columns_have_no_effect get_user.
Proof.
  intros H.
  specialize (H (request GET "/user/:id" "1") (QText "UserName")
                (QArray [QText "UserName"; QText "Points"])
                (boot sample_database [])).
  vm_compute in H. discriminate H.
Qed.

(** C9, amended: the response of [GET /user/:id] and of [GET /users], and
    the world they leave, are the same for any two values of the [columns]
    query parameter that are absent or texts. *)
Theorem columns_parameter_has_no_effect :
  forall (req : Request) (columns1 columns2 : option string) (w : World),
    get_user (with_columns (text_or_absent columns1) req) w
    = get_user (with_columns (text_or_absent columns2) req) w /\
    get_users (with_columns (text_or_absent columns1) req) w
    = get_users (with_columns (text_or_absent columns2) req) w.
Proof.
  intros req columns1 columns2 w. unfold get_user, get_users, bind.
  destruct columns1 as [[|c1 s1]|], columns2 as [[|c2 s2]|]; split; reflexivity.
Qed.

(** ** The two handlers of [DELETE /recipe/:id] *)

Section Registrations.
Variable fetchRecipes :
  option (list string) -> option QueryValue -> option QueryValue ->
  QueryValue -> QueryValue -> M (list Row).
Variable fetchUserLikedRecipes : string -> M (list Row).
Variable fetchRecipeSteps : string -> M (list Row).
Variable fetchImagesByID : string -> bool -> M (list Row).
Variable insertStep : Z -> string -> string -> M JsVal.
Variable createUser : string -> M JsVal.
Variable ToNumber : QueryValue -> option Z.

Let routes :=
  router fetchRecipes fetchUserLikedRecipes fetchRecipeSteps
         fetchImagesByID insertStep createUser ToNumber.
Let routes_without_second :=
  router_without_second_delete fetchRecipes fetchUserLikedRecipes
    fetchRecipeSteps fetchImagesByID insertStep createUser ToNumber.
Let routes_without_first :=
  router_without_first_delete fetchRecipes fetchUserLikedRecipes
    fetchRecipeSteps fetchImagesByID insertStep createUser ToNumber.

Lemma second_delete_is_never_reached (req : Request) (w : World) :
  serve routes req w = serve routes_without_second req w.
Proof.
  unfold serve, routes, routes_without_second, router,
    router_without_second_delete, dispatch.
  cbv [route_method route_path route_handler].
  destruct (req_method req); cbn [method_eqb andb]; try reflexivity.
  destruct ("/recipe/:id" =? req_route req)%string; reflexivity.
Qed.

Lemma first_delete_can_be_dropped (req : Request) (w : World) :
  serve routes req w = serve routes_without_first req w.
Proof.
  unfold serve, routes, routes_without_first, router,
    router_without_first_delete, dispatch.
  cbv [route_method route_path route_handler].
  destruct (req_method req); cbn [method_eqb andb]; try reflexivity.
  destruct ("/recipe/:id" =? req_route req)%string; reflexivity.
Qed.
End Registrations.

Lemma delete_handler_answers (req : Request) (w : World) :
  exists rowsAffected w',
    deleteRecipe (params_id req) w = (Returned rowsAffected, w') /\
    delete_recipe_first req w
    = (Returned (if rowsAffected >? 0
                 then mkResponse 200 (BodyMessage "Recipe deleted")
                 else mkResponse 404
                        (BodyError "Recipe not found or not deleted")), w').
Proof.
  destruct (deleteRecipe_safe (params_id req)) as (Hret & _).
  destruct (Hret w) as (n & Hn).
  destruct (deleteRecipe (params_id req) w) as [o w'] eqn:E.
  simpl in Hn. subst o. exists n, w'. split; [reflexivity|].
  unfold delete_recipe_first, bind. rewrite E.
  destruct (n >? 0); reflexivity.
Qed.

(** C10: the two handlers registered for [DELETE /recipe/:id] are the same
    function of the request and the world; each calls [deleteRecipe] with
    the id of the request and answers 200 with the message 'Recipe
    deleted' when the count is positive and 404 with the error 'Recipe
    not found or not deleted' otherwise; and the router serves every
    request the same with both registrations, with the first alone and
    with the second alone. *)
Theorem duplicate_delete_registration_is_unobservable :
  forall fetchRecipes fetchUserLikedRecipes fetchRecipeSteps fetchImagesByID
         insertStep createUser ToNumber (req : Request) (w : World),
    delete_recipe_first req w = delete_recipe_second req w /\
    (exists rowsAffected w',
       deleteRecipe (params_id req) w = (Returned rowsAffected, w') /\
       delete_recipe_first req w
       = (Returned (if rowsAffected >? 0
                    then mkResponse 200 (BodyMessage "Recipe deleted")
                    else mkResponse 404
                           (BodyError "Recipe not found or not deleted")),
          w')) /\
    serve (router fetchRecipes fetchUserLikedRecipes fetchRecipeSteps
                  fetchImagesByID insertStep createUser ToNumber) req w
    = serve (router_without_second_delete fetchRecipes fetchUserLikedRecipes
               fetchRecipeSteps fetchImagesByID insertStep createUser ToNumber)
            req w /\
    serve (router fetchRecipes fetchUserLikedRecipes fetchRecipeSteps
                  fetchImagesByID insertStep createUser ToNumber) req w
    = serve (router_without_first_delete fetchRecipes fetchUserLikedRecipes
               fetchRecipeSteps fetchImagesByID insertStep createUser ToNumber)
            req w.
Proof.
  intros. split; [reflexivity|]. split; [apply delete_handler_answers|].
  split; [apply second_delete_is_never_reached
         |apply first_delete_can_be_dropped].
Qed.

(** ** The loop of [POST /steps/:id] *)

Lemma numbered_from_numbers (i : nat) (steps : list string) :
  map fst (numbered_from i steps)
  = map Z.of_nat (seq (S i) (List.length steps)) /\
  map snd (numbered_from i steps) = steps.
Proof.
  revert i. induction steps as [|s steps IH]; intros i; simpl; [auto|].
  destruct (IH (S i)) as [H1 H2]. rewrite H1, H2. split; [|reflexivity].
  f_equal. lia.
Qed.

Section StepLoop.
Variable insertStep : Z -> string -> string -> M JsVal.
Variable recipeID : string.

Lemma insert_from_step (i : nat) (s : string) (steps : list string)
      (w : World) :
  insert_from insertStep i (s :: steps) recipeID w
  = match insertStep (Z.of_nat i + 1) s recipeID w with
    | (Returned v, w1) =>
        if truthy v
        then insert_from insertStep (S i) steps recipeID
                         (write_console (LogValue v) w1)
        else (Returned false, write_console (LogValue v) w1)
    | (Thrown err, w1) => (Thrown err, w1)
    end.
Proof.
  simpl. unfold bind, console_log.
  destruct (insertStep (Z.of_nat i + 1) s recipeID w) as [[v|err] w1];
    [|reflexivity].
  destruct (truthy v); reflexivity.
Qed.

Lemma run_calls_step (call : Z * string) (calls : list (Z * string))
      (w : World) :
  run_calls insertStep recipeID (call :: calls) w
  = match insertStep (fst call) (snd call) recipeID w with
    | (Returned v, w1) =>
        let '(rs, w2) := run_calls insertStep recipeID calls
                                   (write_console (LogValue v) w1) in
        (Returned v :: rs, w2)
    | (Thrown err, w1) =>
        let '(rs, w2) := run_calls insertStep recipeID calls w1 in
        (Thrown err :: rs, w2)
    end.
Proof.
  simpl. unfold step_call, bind, console_log, ret.
  destruct (insertStep (fst call) (snd call) recipeID w) as [[v|err] w1];
    reflexivity.
Qed.

Lemma insert_from_runs_a_prefix (steps : list string) :
  forall (i : nat) (w : World),
  exists k : nat,
    (k <= List.length steps)%nat /\
    let calls := firstn k (numbered_from i steps) in
    let responses := fst (run_calls insertStep recipeID calls w) in
    snd (insert_from insertStep i steps recipeID w)
    = snd (run_calls insertStep recipeID calls w) /\
    forallb succeeded (removelast responses) = true /\
    (forallb succeeded responses = true -> k = List.length steps) /\
    fst (insert_from insertStep i steps recipeID w)
    = (if forallb succeeded responses then Returned true
       else match last responses (Returned JNull) with
            | Thrown err => Thrown err
            | Returned _ => Returned false
            end).
Proof.
  induction steps as [|s steps IH]; intros i w.
  - exists 0%nat. simpl. auto.
  - rewrite insert_from_step.
    destruct (insertStep (Z.of_nat i + 1) s recipeID w) as [[v|err] w1] eqn:E.
    + destruct (truthy v) eqn:Ev.
      * destruct (IH (S i) (write_console (LogValue v) w1))
          as (k & Hk & Hw & Hpre & Hall & Hres).
        exists (S k). split; [simpl; lia|].
        cbn [firstn numbered_from]. cbn zeta in *.
        rewrite run_calls_step. cbn [fst snd]. rewrite E.
        destruct (run_calls insertStep recipeID
                    (firstn k (numbered_from (S i) steps))
                    (write_console (LogValue v) w1)) as [rs w2] eqn:Er.
        cbn [fst snd] in *. repeat split.
        -- exact Hw.
        -- destruct rs as [|r rs]; [reflexivity|].
           change (removelast (Returned v :: r :: rs))
             with (Returned v :: removelast (r :: rs)).
           cbn [forallb succeeded]. rewrite Ev. exact Hpre.
        -- cbn [forallb succeeded]. rewrite Ev. cbn [andb]. intros H.
           rewrite (Hall H). reflexivity.
        -- rewrite Hres. cbn [forallb succeeded]. rewrite Ev. cbn [andb].
           destruct rs as [|r rs]; reflexivity.
      * exists 1%nat. split; [simpl; lia|].
        cbn [firstn numbered_from]. cbn zeta.
        rewrite run_calls_step. cbn [fst snd]. rewrite E.
        cbn [run_calls fst snd forallb succeeded removelast last].
        rewrite Ev. cbn [andb]. repeat split; auto. discriminate.
    + exists 1%nat. split; [simpl; lia|].
      cbn [firstn numbered_from]. cbn zeta.
      rewrite run_calls_step. cbn [fst snd]. rewrite E.
      cbn [run_calls fst snd forallb succeeded removelast last andb].
      repeat split; auto. discriminate.
Qed.
End StepLoop.

Lemma firstn_numbered_from (k i : nat) (steps : list string) :
  firstn k (numbered_from i steps) = numbered_from i (firstn k steps).
Proof.
  revert i steps. induction k as [|k IH]; intros i [|s steps]; simpl;
    try reflexivity.
  rewrite IH. reflexivity.
Qed.

(** C5: for any [insertStep], the handler of [POST /steps/:id] makes the
    calls [insertStep(1, steps[0], id)], [insertStep(2, steps[1], id)], ...
    in this order and one per instruction, up to and including the first
    call that answers a falsy value (or throws) and no further; it leaves
    the world those calls have left, undoing nothing, and answers 201 when
    every instruction was inserted and 500 when a call answered a falsy
    value. *)
Theorem post_steps_inserts_in_order_until_first_failure :
  forall (insertStep : Z -> string -> string -> M JsVal) (req : Request)
         (w : World),
  exists k : nat,
    (k <= List.length (body_steps req))%nat /\
    let calls := firstn k (numbered_from 0 (body_steps req)) in
    let responses := fst (run_calls insertStep (params_id req) calls w) in
    map fst calls = map Z.of_nat (seq 1 k) /\
    map snd calls = firstn k (body_steps req) /\
    snd (post_steps insertStep req w)
    = snd (run_calls insertStep (params_id req) calls w) /\
    forallb succeeded (removelast responses) = true /\
    (forallb succeeded responses = true -> k = List.length (body_steps req)) /\
    fst (post_steps insertStep req w) = steps_verdict responses.
Proof.
  intros insertStep req w.
  destruct (insert_from_runs_a_prefix insertStep (params_id req)
              (body_steps req) 0%nat w) as (k & Hk & Hw & Hpre & Hall & Hres).
  exists k. split; [exact Hk|]. cbn zeta in *.
  rewrite firstn_numbered_from.
  destruct (numbered_from_numbers 0 (firstn k (body_steps req))) as [Hn Hs].
  rewrite length_firstn, Nat.min_l in Hn by exact Hk.
  rewrite <- firstn_numbered_from in *.
  repeat split; try assumption.
  - unfold post_steps, bind.
    destruct (insert_from insertStep 0 (body_steps req) (params_id req) w)
      as [[[|]|err] w'] eqn:E; exact Hw.
  - unfold post_steps, bind, steps_verdict.
    destruct (insert_from insertStep 0 (body_steps req) (params_id req) w)
      as [o w'] eqn:E.
    cbn [fst] in Hres. subst o.
    destruct (forallb succeeded _); [reflexivity|].
    destruct (last _ _); reflexivity.
Qed.

Lemma post_steps_inserts_in_order_until_first_failure_witness :
  let req := with_steps ["Boil"; "Stir"; "Serve"] (request POST "/steps/:id" "7") in
  let w := boot sample_database
             [None; None; None; None; None; None; None; None;
              None; Some (DbError "ORA-00001")] in
  (exists k : nat,
     (k <= 3)%nat /\
     snd (post_steps SpecModel.insertStep req w)
     = snd (run_calls SpecModel.insertStep "7"
              (firstn k [(1, "Boil"); (2, "Stir"); (3, "Serve")]) w)) /\
  fst (post_steps SpecModel.insertStep req w)
  = Returned (mkResponse 500 (BodyError "Failed to insert all steps")) /\
  Steps (committed (snd (post_steps SpecModel.insertStep req w)))
  = [mkStep 7 1 "Boil"; mkStep 7 2 "Stir"].
Proof.
  intros req w. split; [|split; vm_compute; reflexivity].
  destruct (post_steps_inserts_in_order_until_first_failure
              SpecModel.insertStep req w) as (k & Hk & _ & _ & Hw & _).
  exists k. split; [exact Hk | exact Hw].
Defined.

(** * Further properties of the executors and the handlers *)

(** ** What the mutating executors commit *)

Lemma with_RecipeCreated2_same (db : Database) :
  with_RecipeCreated2 (RecipeCreated2 db) db = db.
Proof. destruct db; reflexivity. Qed.

Lemma RecipeCreated2_with (rs : list Recipe) (db : Database) :
  RecipeCreated2 (with_RecipeCreated2 rs db) = rs.
Proof. reflexivity. Qed.

Lemma count_matching_zero (id : Z) (rs : list Recipe) :
  count_matching id rs = 0 ->
  forall r, In r rs -> (RecipeID r =? id) = false.
Proof.
  unfold count_matching. intros H r Hr.
  destruct (RecipeID r =? id) eqn:E; [|reflexivity].
  assert (Hin : In r (filter (fun r => RecipeID r =? id) rs))
    by (apply filter_In; auto).
  destruct (filter (fun r => RecipeID r =? id) rs); [contradiction|].
  simpl in H. lia.
Qed.

Lemma delete_recipe_no_match (id : Z) (rs : list Recipe) :
  count_matching id rs = 0 -> delete_recipe id rs = rs.
Proof.
  intros H. pose proof (count_matching_zero id rs H) as Hz.
  unfold delete_recipe. clear H.
  induction rs as [|r rs IH]; simpl; [reflexivity|].
  rewrite (Hz r (or_introl eq_refl)). simpl. f_equal.
  apply IH. intros r' Hr'. apply Hz. right. exact Hr'.
Qed.

Lemma update_recipe_no_match name cuisine time user (id : Z)
      (rs : list Recipe) :
  count_matching id rs = 0 ->
  update_recipe name cuisine time user id rs = rs.
Proof.
  intros H. pose proof (count_matching_zero id rs H) as Hz.
  unfold update_recipe. clear H.
  induction rs as [|r rs IH]; simpl; [reflexivity|].
  rewrite (Hz r (or_introl eq_refl)). f_equal.
  apply IH. intros r' Hr'. apply Hz. right. exact Hr'.
Qed.

(** A call of [deleteRecipe] either leaves the committed tables as they
    are and returns 0, or commits the deletion of the rows of the id the
    database reads in the text and returns their count. *)
Lemma deleteRecipe_effect (recipeID : string) (w : World) :
  (fst (deleteRecipe recipeID w) = Returned 0 /\
   committed (snd (deleteRecipe recipeID w)) = committed w) \/
  (exists id,
     read_bind (dialect w) recipeID = Integer id /\
     fst (deleteRecipe recipeID w)
     = Returned (count_matching id (RecipeCreated2 (committed w))) /\
     committed (snd (deleteRecipe recipeID w))
     = with_RecipeCreated2 (delete_recipe id (RecipeCreated2 (committed w)))
                           (committed w)).
Proof.
  unfold deleteRecipe. fault_cases w; run_executor; case_texts; eauto 10.
Qed.

Lemma updateRecipe_effect (recipe : RecipeInput) (recipeID : string)
      (w : World) :
  (fst (updateRecipe (recipe, recipeID) w) = Returned 0 /\
   committed (snd (updateRecipe (recipe, recipeID) w)) = committed w) \/
  (exists id,
     read_bind (dialect w) recipeID = Integer id /\
     fst (updateRecipe (recipe, recipeID) w)
     = Returned (count_matching id (RecipeCreated2 (committed w))) /\
     committed (snd (updateRecipe (recipe, recipeID) w))
     = with_RecipeCreated2
         (update_recipe (in_RecipeName recipe) (in_Cuisine recipe)
                        (in_CookingTime recipe) (in_UserID recipe) id
                        (RecipeCreated2 (committed w)))
         (committed w)).
Proof.
  unfold updateRecipe. fault_cases w; run_executor; case_texts; eauto 10.
Qed.

Lemma createRecipe_effect (recipe : RecipeInput) (w : World) :
  (fst (createRecipe recipe w) = Returned JNull /\
   committed (snd (createRecipe recipe w)) = committed w) \/
  (fst (createRecipe recipe w) = Returned (JNum (recipe_seq w)) /\
   committed (snd (createRecipe recipe w))
   = with_RecipeCreated2
       (RecipeCreated2 (committed w) ++ [recipe_of (recipe_seq w) recipe])
       (committed w)).
Proof.
  unfold createRecipe, recipe_of.
  fault_cases w;
    cbv [fst promise_catch withOracleDB bind ret getConnection execute commit
         close next_fault console_error record_event write_console
         faults committed session recipe_seq console events checked_out
         granted dialect run snd first_outBind outBinds dml_result];
    auto.
Qed.

(** The executors leave the reading of the database as it is. *)
Lemma executors_keep_the_dialect (w : World) :
  (forall recipe, dialect (snd (createRecipe recipe w)) = dialect w) /\
  (forall recipeID, dialect (snd (deleteRecipe recipeID w)) = dialect w) /\
  (forall recipe, dialect (snd (updateRecipe recipe w)) = dialect w) /\
  (forall RecipeID, dialect (snd (fetchRecipeByID RecipeID w)) = dialect w).
Proof.
  repeat split; intros;
    unfold createRecipe, deleteRecipe, updateRecipe, fetchRecipeByID;
    fault_cases w; run_executor; case_texts; reflexivity.
Qed.

(** X1: a mutating executor that returns its default ([null] for
    [createRecipe], [0] for [deleteRecipe] and [updateRecipe]) has left
    the committed tables exactly as they were, whether it failed or
    matched no row. *)
Theorem mutators_returning_default_change_nothing :
  forall (w w1 : World),
    (forall recipe, createRecipe recipe w = (Returned JNull, w1) ->
                    committed w1 = committed w) /\
    (forall id, deleteRecipe id w = (Returned 0, w1) ->
                committed w1 = committed w) /\
    (forall recipe id, updateRecipe (recipe, id) w = (Returned 0, w1) ->
                       committed w1 = committed w).
Proof.
  intros w w1. repeat split.
  - intros recipe H.
    destruct (createRecipe_effect recipe w) as [[_ Hc]|[Hr _]];
      rewrite H in *; [exact Hc | discriminate Hr].
  - intros id H.
    destruct (deleteRecipe_effect id w) as [[_ Hc]|(k & _ & Hr & Hc)];
      rewrite H in *; simpl in *; [exact Hc|].
    injection Hr as Hr. rewrite Hc, delete_recipe_no_match by auto.
    apply with_RecipeCreated2_same.
  - intros recipe id H.
    destruct (updateRecipe_effect recipe id w) as [[_ Hc]|(k & _ & Hr & Hc)];
      rewrite H in *; simpl in *; [exact Hc|].
    injection Hr as Hr. rewrite Hc, update_recipe_no_match by auto.
    apply with_RecipeCreated2_same.
Qed.

Lemma mutators_returning_default_change_nothing_witness :
  let w := boot sample_database [] in
  committed (snd (deleteRecipe "8" w)) = sample_database /\
  committed (snd (updateRecipe (mkRecipeInput "Soup" "Thai" "00:10:00" 2, "8") w))
  = sample_database.
Proof.
  intros w.
  destruct (mutators_returning_default_change_nothing w (snd (deleteRecipe "8" w)))
    as (_ & Hd & _).
  destruct (mutators_returning_default_change_nothing w
              (snd (updateRecipe (mkRecipeInput "Soup" "Thai" "00:10:00" 2, "8") w)))
    as (_ & _ & Hu).
  split; [apply (Hd "8")
         | apply (Hu (mkRecipeInput "Soup" "Thai" "00:10:00" 2) "8")];
    vm_compute; reflexivity.
Defined.

Lemma filter_split_length {A : Type} (f : A -> bool) (l : list A) :
  (List.length (filter f l) + List.length (filter (fun x => negb (f x)) l)
   = List.length l)%nat.
Proof.
  induction l as [|x l IH]; simpl; [reflexivity|].
  destruct (f x); simpl; lia.
Qed.

Lemma filter_twice {A : Type} (f : A -> bool) (l : list A) :
  filter f (filter f l) = filter f l.
Proof.
  induction l as [|x l IH]; simpl; [reflexivity|].
  destruct (f x) eqn:E; simpl; rewrite ?E, IH; reflexivity.
Qed.

(** X2: the count [deleteRecipe] returns is the number of rows its call
    has removed from the committed [RecipeCreated2], in every world; the
    rows of the other ids are kept, and nothing is removed when the
    database reads no integer in the text. *)
Theorem deleteRecipe_count_is_rows_removed :
  forall (recipeID : string) (n : Z) (w w1 : World),
    deleteRecipe recipeID w = (Returned n, w1) ->
    Z.of_nat (List.length (RecipeCreated2 (committed w)))
    = Z.of_nat (List.length (RecipeCreated2 (committed w1))) + n /\
    (forall id,
       read_bind (dialect w) recipeID = Integer id ->
       filter (fun r => negb (RecipeID r =? id)) (RecipeCreated2 (committed w1))
       = filter (fun r => negb (RecipeID r =? id))
                (RecipeCreated2 (committed w))) /\
    ((forall id, read_bind (dialect w) recipeID <> Integer id) ->
     RecipeCreated2 (committed w1) = RecipeCreated2 (committed w)).
Proof.
  intros recipeID n w w1 H.
  destruct (deleteRecipe_effect recipeID w) as [[Hr Hc]|(k & Hk & Hr & Hc)];
    rewrite H in *; simpl in *; injection Hr as ->; rewrite Hc.
  - split; [lia | split; reflexivity].
  - rewrite RecipeCreated2_with. unfold count_matching, delete_recipe.
    split; [|split].
    + rewrite <- (filter_split_length (fun r => RecipeID r =? k)
                    (RecipeCreated2 (committed w))). lia.
    + intros id Hid. rewrite Hk in Hid. injection Hid as <-.
      apply filter_twice.
    + intros Hno. exfalso. apply (Hno k). exact Hk.
Qed.

Lemma deleteRecipe_count_is_rows_removed_witness :
  let w := boot sample_database [] in
  Z.of_nat (List.length (RecipeCreated2 (committed w)))
  = Z.of_nat (List.length (RecipeCreated2 (committed (snd (deleteRecipe "7" w)))))
    + 1.
Proof.
  intros w.
  apply (deleteRecipe_count_is_rows_removed "7" 1 w (snd (deleteRecipe "7" w))).
  vm_compute; reflexivity.
Defined.

Lemma update_recipe_ids name cuisine time user (id : Z) (rs : list Recipe) :
  map RecipeID (update_recipe name cuisine time user id rs) = map RecipeID rs.
Proof.
  unfold update_recipe. induction rs as [|r rs IH]; simpl; [reflexivity|].
  rewrite IH. f_equal. destruct (RecipeID r =? id) eqn:E; [|reflexivity].
  apply Z.eqb_eq in E. simpl. auto.
Qed.

Lemma update_recipe_others name cuisine time user (id : Z) (rs : list Recipe) :
  filter (fun r => negb (RecipeID r =? id))
         (update_recipe name cuisine time user id rs)
  = filter (fun r => negb (RecipeID r =? id)) rs.
Proof.
  unfold update_recipe. induction rs as [|r rs IH]; simpl; [reflexivity|].
  destruct (RecipeID r =? id) eqn:E; simpl.
  - rewrite Z.eqb_refl. simpl. exact IH.
  - rewrite E. simpl. f_equal. exact IH.
Qed.

(** X3: [updateRecipe] never adds or removes a recipe and never changes
    the row of another id: in every world the committed recipes have the
    same ids in the same order after the call, and the rows of the ids
    other than the one the database reads in the text are the same. *)
Theorem updateRecipe_keeps_ids_and_other_rows :
  forall (recipe : RecipeInput) (recipeID : string) (w : World),
    let w1 := snd (updateRecipe (recipe, recipeID) w) in
    map RecipeID (RecipeCreated2 (committed w1))
    = map RecipeID (RecipeCreated2 (committed w)) /\
    (forall id,
       read_bind (dialect w) recipeID = Integer id ->
       filter (fun r => negb (RecipeID r =? id)) (RecipeCreated2 (committed w1))
       = filter (fun r => negb (RecipeID r =? id))
                (RecipeCreated2 (committed w))) /\
    ((forall id, read_bind (dialect w) recipeID <> Integer id) ->
     RecipeCreated2 (committed w1) = RecipeCreated2 (committed w)).
Proof.
  intros recipe recipeID w w1. unfold w1.
  destruct (updateRecipe_effect recipe recipeID w)
    as [[_ Hc]|(k & Hk & _ & Hc)]; rewrite Hc.
  - auto.
  - rewrite RecipeCreated2_with. split; [|split].
    + apply update_recipe_ids.
    + intros id Hid. rewrite Hk in Hid. injection Hid as <-.
      apply update_recipe_others.
    + intros Hno. exfalso. apply (Hno k). exact Hk.
Qed.

Lemma updateRecipe_keeps_ids_and_other_rows_witness :
  let recipe := mkRecipeInput "Pesto" "Italian" "00:20:00" 2 in
  let w := boot sample_database [] in
  filter (fun r => negb (RecipeID r =? 7))
         (RecipeCreated2 (committed (snd (updateRecipe (recipe, "7") w))))
  = [mkRecipe 9 "Moussaka" "Greek" "01:15:00" 2].
Proof.
  intros recipe w.
  destruct (updateRecipe_keeps_ids_and_other_rows recipe "7" w) as (_ & H & _).
  rewrite (H 7 eq_refl). reflexivity.
Defined.

(** ** Reading a recipe back *)

Lemma select_recipe_by_id_spec (db : Database) (id : Z) (row : Row) :
  In row (select_recipe_by_id db id) <->
  exists r u, In r (RecipeCreated2 db) /\ RecipeID r = id /\
              In u (Users2 db) /\ UserID r = creator_UserID u /\
              row = recipe_row r u.
Proof.
  unfold select_recipe_by_id, recipe_row. rewrite in_flat_map. split.
  - intros (r & Hr & Hrow). destruct (RecipeID r =? id) eqn:E; [|contradiction].
    apply Z.eqb_eq in E. apply in_flat_map in Hrow.
    destruct Hrow as (u & Hu & Hrow).
    destruct (UserID r =? creator_UserID u) eqn:Eu; [|contradiction].
    apply Z.eqb_eq in Eu. destruct Hrow as [<-|[]]. exists r, u. auto.
  - intros (r & u & Hr & Hid & Hu & Hru & ->). exists r. split; [exact Hr|].
    apply Z.eqb_eq in Hid. rewrite Hid. apply in_flat_map. exists u.
    split; [exact Hu|]. apply Z.eqb_eq in Hru. rewrite Hru. left; reflexivity.
Qed.

Lemma fetchRecipeByID_returns (RecipeID : string) (w : World) :
  fst (fetchRecipeByID RecipeID w) = Returned [] \/
  (exists id,
     read_bind (dialect w) RecipeID = Integer id /\
     fst (fetchRecipeByID RecipeID w)
     = Returned (select_recipe_by_id (committed w) id)).
Proof.
  unfold fetchRecipeByID. fault_cases w; run_executor; case_texts; eauto 10.
Qed.

Lemma fetchRecipeByID_rows (RecipeID : string) (id : Z) (w : World) :
  faults w = [] ->
  read_bind (dialect w) RecipeID = Integer id ->
  fst (fetchRecipeByID RecipeID w)
  = Returned (select_recipe_by_id (committed w) id).
Proof.
  destruct w as [cm ss sq fs co ev ck gr dl]. simpl. intros -> Hid.
  unfold fetchRecipeByID. run_executor. rewrite Hid. reflexivity.
Qed.

(** X4: a recipe [createRecipe] has returned an id for can be read back:
    when the driver reports no failure afterwards, [fetchRecipeByID] of a
    text the database reads as that id returns the row of the submitted
    name, cuisine and cooking time with the name of every [Users2] row of
    the submitted UserID. *)
Theorem createRecipe_then_fetchRecipeByID :
  forall (recipe : RecipeInput) (id : Z) (text : string) (w w1 : World)
         (u : Creator),
    createRecipe recipe w = (Returned (JNum id), w1) ->
    faults w1 = [] ->
    read_bind (dialect w1) text = Integer id ->
    In u (Users2 (committed w)) ->
    creator_UserID u = in_UserID recipe ->
    exists rs,
      fst (fetchRecipeByID text w1) = Returned rs /\
      In [VNum id; VStr (in_RecipeName recipe); VStr (in_Cuisine recipe);
          VStr (in_CookingTime recipe); VStr (creator_UserName u)] rs.
Proof.
  intros recipe id text w w1 u Hc Hf Htext Hu Hid.
  exists (select_recipe_by_id (committed w1) id).
  split; [apply fetchRecipeByID_rows; assumption|].
  destruct (createRecipe_effect recipe w) as [[Hr _]|[Hr Hcm]];
    rewrite Hc in *; simpl in *; [discriminate Hr|].
  injection Hr as ->. rewrite Hcm.
  apply select_recipe_by_id_spec.
  exists (recipe_of (recipe_seq w) recipe), u. simpl.
  repeat split; auto. apply in_or_app. right. left. reflexivity.
Qed.

Lemma createRecipe_then_fetchRecipeByID_witness :
  let recipe := mkRecipeInput "Pasta Verde" "Italian" "00:30:00" 3 in
  let w := boot sample_database [] in
  exists rs,
    fst (fetchRecipeByID "1" (snd (createRecipe recipe w))) = Returned rs /\
    In [VNum 1; VStr "Pasta Verde"; VStr "Italian"; VStr "00:30:00"; VStr "Cy"]
       rs.
Proof.
  intros recipe w.
  apply (createRecipe_then_fetchRecipeByID recipe 1 "1" w
           (snd (createRecipe recipe w)) (mkCreator 3 "Cy"));
    [vm_compute; reflexivity | vm_compute; reflexivity | reflexivity
     | simpl; auto | reflexivity].
Defined.

Lemma update_recipe_matching name cuisine time user (id : Z)
      (rs : list Recipe) (r : Recipe) :
  In r (update_recipe name cuisine time user id rs) ->
  RecipeID r = id ->
  r = mkRecipe id name cuisine time user.
Proof.
  unfold update_recipe. intros Hin Hid. apply in_map_iff in Hin.
  destruct Hin as (r0 & Hr & _).
  destruct (RecipeID r0 =? id) eqn:E; [auto|].
  apply Z.eqb_neq in E. subst r0. contradiction.
Qed.

(** X5: after a call of [updateRecipe] that reported updated rows, every
    row [fetchRecipeByID] returns for the same text shows the id the
    database reads in it and the submitted name, cuisine, cooking time and
    the name of a user of the submitted UserID. *)
Theorem updateRecipe_then_fetchRecipeByID :
  forall (recipe : RecipeInput) (text : string) (n : Z) (w w1 : World)
         (rs : list Row) (row : Row),
    updateRecipe (recipe, text) w = (Returned n, w1) ->
    0 < n ->
    fst (fetchRecipeByID text w1) = Returned rs ->
    In row rs ->
    exists id u,
      read_bind (dialect w) text = Integer id /\
      In u (Users2 (committed w)) /\
      creator_UserID u = in_UserID recipe /\
      row = [VNum id; VStr (in_RecipeName recipe);
             VStr (in_Cuisine recipe); VStr (in_CookingTime recipe);
             VStr (creator_UserName u)].
Proof.
  intros recipe text n w w1 rs row Hu Hn Hf Hin.
  destruct (executors_keep_the_dialect w) as (_ & _ & Hdl & _).
  specialize (Hdl (recipe, text)). rewrite Hu in Hdl. simpl in Hdl.
  destruct (updateRecipe_effect recipe text w)
    as [[Hr _]|(id & Hread & _ & Hc)];
    rewrite Hu in *; simpl in *; [injection Hr as ->; lia|].
  destruct (fetchRecipeByID_returns text w1) as [H|(id' & Hid' & H)];
    rewrite H in Hf; injection Hf as <-; [contradiction|].
  rewrite Hdl, Hread in Hid'. injection Hid' as <-.
  exists id.
  apply select_recipe_by_id_spec in Hin.
  destruct Hin as (r & u & Hr & Hid & Hus & Hru & ->).
  rewrite Hc in Hr, Hus. simpl in Hr, Hus.
  apply update_recipe_matching in Hr; [|assumption]. subst r.
  exists u. simpl in Hru. auto.
Qed.

Lemma updateRecipe_then_fetchRecipeByID_witness :
  let recipe := mkRecipeInput "Pesto" "Italian" "00:20:00" 2 in
  let w := boot sample_database [] in
  exists id u,
    read_bind (dialect w) "7" = Integer id /\
    In u (Users2 sample_database) /\ creator_UserID u = 2 /\
    [VNum 7; VStr "Pesto"; VStr "Italian"; VStr "00:20:00"; VStr "Bob"]
    = [VNum id; VStr "Pesto"; VStr "Italian"; VStr "00:20:00";
       VStr (creator_UserName u)].
Proof.
  intros recipe w.
  apply (updateRecipe_then_fetchRecipeByID recipe "7" 1 w
           (snd (updateRecipe (recipe, "7") w))
           [[VNum 7; VStr "Pesto"; VStr "Italian"; VStr "00:20:00"; VStr "Bob"]]);
    [vm_compute; reflexivity | lia | vm_compute; reflexivity | left; reflexivity].
Defined.

Lemma no_row_of_deleted_id {B : Type} (f : Recipe -> list B) (id : Z)
      (rs : list Recipe) :
  flat_map (fun r => if RecipeID r =? id then f r else [])
           (delete_recipe id rs) = [].
Proof.
  unfold delete_recipe.
  induction rs as [|r rs IH]; simpl; [reflexivity|].
  destruct (RecipeID r =? id) eqn:E; simpl; [exact IH|].
  rewrite E. exact IH.
Qed.

Lemma get_recipe_of_rows (req : Request) (w : World) (rs : list Row) :
  fst (fetchRecipeByID (params_id req) w) = Returned rs ->
  answer get_recipe req w
  = Returned (if (List.length rs =? 0)%nat
              then mkResponse 404 (BodyError "Recipe not found")
              else mkResponse 200 (BodyData rs)).
Proof.
  unfold answer, get_recipe, bind.
  destruct (fetchRecipeByID (params_id req) w) as [o w'].
  simpl. intros ->. destruct (List.length rs =? 0)%nat; reflexivity.
Qed.

(** X6: after [DELETE /recipe/:id] has answered 200, [GET /recipe/:id] of
    the same id answers 404 'Recipe not found', whatever the driver
    reports then. *)
Theorem get_recipe_after_delete_is_404 :
  forall (req req' : Request) (w w1 : World) (r : Response),
    delete_recipe_first req w = (Returned r, w1) ->
    status r = 200 ->
    params_id req' = params_id req ->
    answer get_recipe req' w1
    = Returned (mkResponse 404 (BodyError "Recipe not found")).
Proof.
  intros req req' w w1 r Hd Hs Hid.
  destruct (delete_handler_answers req w) as (n & w' & Hdel & Hans).
  rewrite Hd in Hans. injection Hans as -> ->.
  destruct (n >? 0) eqn:En; [|discriminate Hs].
  apply Z.gtb_lt in En.
  destruct (deleteRecipe_commits _ _ _ _ Hdel En) as (id & Hread & Hc & Hdl).
  assert (Hempty : select_recipe_by_id (committed w') id = []).
  { unfold select_recipe_by_id. rewrite Hc. apply no_row_of_deleted_id. }
  rewrite (get_recipe_of_rows req' w' []); [reflexivity|].
  rewrite Hid.
  destruct (fetchRecipeByID_returns (params_id req) w') as [H|(id' & Hid' & H)];
    rewrite H; [reflexivity|].
  rewrite Hdl, Hread in Hid'. injection Hid' as <-.
  rewrite Hempty; reflexivity.
Qed.

Lemma get_recipe_after_delete_is_404_witness :
  let req := request DELETE "/recipe/:id" "7" in
  let w := boot sample_database [] in
  answer get_recipe (request GET "/recipe/:id" "7") w
  = Returned (mkResponse 200
      (BodyData [[VNum 7; VStr "Pasta Verde"; VStr "Italian";
                  VStr "00:30:00"; VStr "Cy"]])) /\
  answer get_recipe (request GET "/recipe/:id" "7")
         (snd (delete_recipe_first req w))
  = Returned (mkResponse 404 (BodyError "Recipe not found")).
Proof.
  intros req w. split; [vm_compute; reflexivity|].
  apply (get_recipe_after_delete_is_404 req (request GET "/recipe/:id" "7") w
           (snd (delete_recipe_first req w))
           (mkResponse 200 (BodyMessage "Recipe deleted")));
    [vm_compute; reflexivity | reflexivity | reflexivity].
Defined.

(** ** The handlers of the GET routes *)

(** X7: the handlers of [GET /recipe/:id], [/recipes/liked], [/user/:id],
    [/users], [/pantry/:id], [/locations], [/check-db-connection] and
    [/test] never change the committed tables nor advance the recipe
    sequence, whatever the driver reports. *)
Theorem get_handlers_are_read_only :
  read_only get_recipe /\ read_only get_recipes_liked /\
  read_only get_user /\ read_only get_users /\ read_only get_pantry /\
  read_only get_locations /\ read_only get_check_db_connection /\
  read_only get_test.
Proof.
  repeat match goal with |- _ /\ _ => split end;
    intros [method route id columns filter qid img captionless recipe steps
            name] w;
    destruct columns as [|[|c s]|items|fields];
    unfold get_recipe, get_recipes_liked, get_user, get_users, get_pantry,
      get_locations, get_check_db_connection, get_test, fetchRecipeByID,
      fetchLikedRecipes, fetchUser, fetchAllUsers, fetchPantries,
      fetchAllLocations, testOracleConnection;
    fault_cases w; run_handler; split; reflexivity.
Qed.

(** X8: when the driver reports no failure, [POST /recipe] commits one
    new row with the next value of the sequence as its id and the
    submitted fields; it answers 201 with that id, except that for the id
    0 it answers 500 'Failed to create recipe' although the row is
    committed. *)
Theorem post_recipe_without_failure :
  forall (req : Request) (w : World),
    faults w = [] ->
    let id := recipe_seq w in
    RecipeCreated2 (committed (snd (post_recipe req w)))
    = (RecipeCreated2 (committed w) ++ [recipe_of id (body_recipe req)])%list /\
    answer post_recipe req w
    = Returned (if id =? 0
                then mkResponse 500 (BodyError "Failed to create recipe")
                else mkResponse 201
                       (BodyMessageResponse "Recipe created" (JNum id))).
Proof.
  intros req w Hf id. unfold id.
  destruct w as [cm ss sq fs co ev ck gr dl]. simpl in Hf. subst fs.
  unfold answer, post_recipe, createRecipe, recipe_of.
  cbv [fst snd promise_catch withOracleDB bind ret getConnection execute
       commit close next_fault console_error record_event write_console
       faults committed session recipe_seq console events checked_out
       granted dialect run first_outBind outBinds dml_result truthy].
  destruct (sq =? 0); split; reflexivity.
Qed.

Lemma post_recipe_without_failure_witness :
  let req := mkRequest POST "/recipe" "" QAbsent QAbsent QAbsent QAbsent QAbsent
               (mkRecipeInput "Soup" "Thai" "00:10:00" 2) [] "" in
  answer post_recipe req (boot sample_database [])
  = Returned (mkResponse 201 (BodyMessageResponse "Recipe created" (JNum 1))).
Proof.
  intros req.
  destruct (post_recipe_without_failure req (boot sample_database []) eq_refl)
    as [_ H].
  exact H.
Defined.

(** X9: a database that cannot be reached, or that rejects the statement,
    is answered like an empty result: 404 with the route's 'not found'
    error by [GET /recipe/:id], [/recipes/liked] and [/locations], and 200
    with an empty [data] by [GET /pantry/:id] and, when the [columns]
    parameter is absent or a text, by [GET /user/:id] and [/users]. *)
Theorem get_routes_answer_failure_like_empty_result :
  answers_on_read_failure get_recipe
    (mkResponse 404 (BodyError "Recipe not found")) /\
  answers_on_read_failure get_recipes_liked
    (mkResponse 404 (BodyError "No liked recipes found")) /\
  answers_on_read_failure get_locations
    (mkResponse 404 (BodyError "No locations found")) /\
  (forall columns,
     answers_on_read_failure
       (fun req => get_user (with_columns (text_or_absent columns) req))
       (mkResponse 200 (BodyData []))) /\
  (forall columns,
     answers_on_read_failure
       (fun req => get_users (with_columns (text_or_absent columns) req))
       (mkResponse 200 (BodyData []))) /\
  answers_on_read_failure get_pantry (mkResponse 200 (BodyData [])).
Proof.
  repeat match goal with |- _ /\ _ => split end;
    try (intros [[|c s]|]); intros req err w;
    unfold get_recipe, get_recipes_liked, get_user, get_users,
      get_pantry, get_locations, fetchRecipeByID, fetchLikedRecipes,
      fetchUser, fetchAllUsers, fetchPantries, fetchAllLocations;
    fault_cases w; split; run_texts; reflexivity.
Qed.

(** X10: [GET /check-db-connection] answers 200 with 'unable to connect'
    exactly when the acquisition of the connection fails and with
    'connected' otherwise, also when the close of the connection fails. *)
Theorem check_db_connection_reports_acquisition :
  forall (req : Request) (w : World),
    answer get_check_db_connection req w
    = Returned (mkResponse 200
        (BodyText match faults w with
                  | Some _ :: _ => "unable to connect"
                  | _ => "connected"
                  end)).
Proof.
  intros req w. unfold answer, get_check_db_connection, testOracleConnection.
  fault_cases w; reflexivity.
Qed.

(** X11: [POST /steps/:id] with an empty list of steps answers 201 'Steps
    inserted successfully' without calling [insertStep] and without any
    effect. *)
Theorem post_steps_of_no_step :
  forall (insertStep : Z -> string -> string -> M JsVal) (req : Request)
         (w : World),
    body_steps req = [] ->
    post_steps insertStep req w
    = (Returned (mkResponse 201 (BodyMessage "Steps inserted successfully")),
       w).
Proof.
  intros insertStep req w H. unfold post_steps. rewrite H. reflexivity.
Qed.

Lemma post_steps_of_no_step_witness :
  post_steps (fun _ _ _ => throw (TypeError "insertStep is not a function"))
             (request POST "/steps/:id" "7") (boot sample_database [])
  = (Returned (mkResponse 201 (BodyMessage "Steps inserted successfully")),
     boot sample_database []).
Proof.
  apply post_steps_of_no_step. reflexivity.
Defined.

(** ** The order and the content of the rows *)

Lemma fetchAllRecipes_returns (w : World) :
  fst (fetchAllRecipes w) = Returned [] \/
  fst (fetchAllRecipes w) = Returned (select_all_recipes (committed w)).
Proof. unfold fetchAllRecipes. fault_cases w; run_executor; auto. Qed.

Lemma fetchLikedRecipes_returns (w : World) :
  fst (fetchLikedRecipes w) = Returned [] \/
  fst (fetchLikedRecipes w) = Returned (select_liked_recipes (committed w)).
Proof. unfold fetchLikedRecipes. fault_cases w; run_executor; auto. Qed.

Lemma fetchPantries_returns (UserID : string) (id : Z) (w : World) :
  decimal UserID = Some id ->
  fst (fetchPantries UserID w) = Returned [] \/
  fst (fetchPantries UserID w) = Returned (select_pantries (committed w) id).
Proof.
  intros Hid. unfold fetchPantries.
  fault_cases w; run_executor; rewrite ?Hid; auto.
Qed.

Lemma select_all_recipes_sorted (db : Database) :
  StronglySorted Z.le (map first_number (select_all_recipes db)).
Proof.
  unfold select_all_recipes.
  apply StronglySorted_flat_map_key with (key := RecipeID).
  - intros r row Hrow. apply in_flat_map in Hrow.
    destruct Hrow as (rc & _ & Hrow).
    destruct (_ =? _)%string; [|contradiction].
    apply in_flat_map in Hrow. destruct Hrow as (u & _ & Hrow).
    destruct (_ =? _); [|contradiction]. destruct Hrow as [<-|[]]. reflexivity.
  - apply (order_by_key_sorted RecipeID).
Qed.

Lemma select_liked_recipes_sorted (db : Database) :
  StronglySorted Z.le (map first_number (select_liked_recipes db)).
Proof.
  unfold select_liked_recipes.
  apply StronglySorted_flat_map_key with (key := like_RecipeID).
  - intros rl row Hrow. destruct (Liked rl =? 1); [|contradiction].
    apply in_flat_map in Hrow. destruct Hrow as (rc & _ & Hrow).
    destruct (like_RecipeID rl =? RecipeID rc); [|contradiction].
    apply in_flat_map in Hrow. destruct Hrow as (u & _ & Hrow).
    destruct (_ =? _); [|contradiction]. destruct Hrow as [<-|[]]. reflexivity.
  - apply (order_by_key_sorted like_RecipeID).
Qed.

Lemma select_all_users_sorted (db : Database) :
  StronglySorted Z.le (map first_number (select_all_users db)).
Proof.
  unfold select_all_users.
  apply StronglySorted_flat_map_key with (key := UserId).
  - intros u row Hrow. apply ranked_spec in Hrow.
    destruct Hrow as (p & _ & ->). reflexivity.
  - apply (order_by_key_sorted UserId).
Qed.

(** X12: in every world the rows of [fetchAllRecipes] and of
    [fetchLikedRecipes] are in non-decreasing order of their RecipeID, and
    the rows of [fetchAllUsers] in non-decreasing order of their UserID
    (their first column). *)
Theorem rows_are_ordered_by_id :
  forall (w : World) (rs : list Row),
    (fst (fetchAllRecipes w) = Returned rs ->
     StronglySorted Z.le (map first_number rs)) /\
    (fst (fetchLikedRecipes w) = Returned rs ->
     StronglySorted Z.le (map first_number rs)) /\
    (forall (X : Type) (arg : X),
       fst (fetchAllUsers arg w) = Returned rs ->
       StronglySorted Z.le (map first_number rs)).
Proof.
  intros w rs. repeat split.
  - intros H. destruct (fetchAllRecipes_returns w) as [E|E]; rewrite E in H;
      injection H as <-; [constructor | apply select_all_recipes_sorted].
  - intros H. destruct (fetchLikedRecipes_returns w) as [E|E]; rewrite E in H;
      injection H as <-; [constructor | apply select_liked_recipes_sorted].
  - intros X arg H.
    destruct (fetchAllUsers_returns X arg w) as [E|E]; rewrite E in H;
      injection H as <-; [constructor | apply select_all_users_sorted].
Qed.

Lemma rows_are_ordered_by_id_witness :
  let w := boot sample_database [] in
  fst (fetchAllRecipes w)
  = Returned [[VNum 7; VStr "Pasta Verde"; VStr "Italian"; VStr "Easy";
               VStr "00:30:00"; VStr "Cy"];
              [VNum 9; VStr "Moussaka"; VStr "Greek"; VStr "Hard";
               VStr "01:15:00"; VStr "Bob"]] /\
  StronglySorted Z.le [7; 9].
Proof.
  intros w. split; [vm_compute; reflexivity|].
  destruct (rows_are_ordered_by_id w
              [[VNum 7; VStr "Pasta Verde"; VStr "Italian"; VStr "Easy";
                VStr "00:30:00"; VStr "Cy"];
               [VNum 9; VStr "Moussaka"; VStr "Greek"; VStr "Hard";
                VStr "01:15:00"; VStr "Bob"]]) as (H & _ & _).
  apply H. vm_compute; reflexivity.
Defined.

Lemma select_pantries_ids (db : Database) (id : Z) (row : Row) :
  In row (select_pantries db id) -> first_number row = id.
Proof.
  unfold select_pantries. intros H. apply in_flat_map in H.
  destruct H as (u & _ & H). destruct (up_UserID u =? id) eqn:E;
    [|contradiction].
  apply Z.eqb_eq in E. apply in_flat_map in H. destruct H as (p & _ & H).
  destruct (_ =? _); [|contradiction]. destruct H as [<-|[]]. exact E.
Qed.

(** X13: in every world, every row [fetchRecipeByID] returns carries in
    its first column the id the database reads in the text it was called
    with, whatever that text; every row [fetchUser] and [fetchPantries]
    return for the decimal numeral of an id carries that id.  The text of
    the last two is spliced into the statement, and nothing is stated of
    their rows for a text that is no numeral. *)
Theorem rows_carry_the_requested_id :
  forall (text : string) (w : World) (rs : list Row) (row : Row),
    In row rs ->
    (fst (fetchRecipeByID text w) = Returned rs ->
     exists id, read_bind (dialect w) text = Integer id /\
                first_number row = id) /\
    (forall id, decimal text = Some id ->
                fst (fetchUser text w) = Returned rs ->
                first_number row = id) /\
    (forall id, decimal text = Some id ->
                fst (fetchPantries text w) = Returned rs ->
                first_number row = id).
Proof.
  intros text w rs row Hin. split; [|split].
  - intros H.
    destruct (fetchRecipeByID_returns text w) as [E|(id & Hid & E)];
      rewrite E in H; injection H as <-; [contradiction|].
    exists id. split; [exact Hid|].
    apply select_recipe_by_id_spec in Hin.
    destruct Hin as (r & u & _ & Hr & _ & _ & ->). exact Hr.
  - intros id Hid H.
    destruct (fetchUser_returns text id w Hid) as [E|E]; rewrite E in H;
      injection H as <-; [contradiction|].
    apply select_user_spec in Hin.
    destruct Hin as (u & p & _ & Hu & _ & ->). exact Hu.
  - intros id Hid H.
    destruct (fetchPantries_returns text id w Hid) as [E|E]; rewrite E in H;
      injection H as <-; [contradiction|].
    apply select_pantries_ids in Hin. exact Hin.
Qed.

Lemma rows_carry_the_requested_id_witness :
  first_number [VNum 1; VNum 4; VStr "Baking"] = 1.
Proof.
  destruct (rows_carry_the_requested_id "1" (boot sample_database [])
              [[VNum 1; VNum 4; VStr "Baking"]] [VNum 1; VNum 4; VStr "Baking"]
              (or_introl eq_refl)) as (_ & _ & H).
  apply (H 1 eq_refl). vm_compute; reflexivity.
Defined.

(** ** The order of the locations *)

Lemma string_leb_refl (s : string) : String.leb s s = true.
Proof.
  unfold String.leb. pose proof (String.compare_antisym s s) as H.
  destruct (String.compare s s); simpl in H; try discriminate; reflexivity.
Qed.

Lemma string_leb_trans (a b c : string) :
  String.leb a b = true -> String.leb b c = true -> String.leb a c = true.
Proof.
  unfold String.leb. revert b c.
  induction a as [|x a IH]; intros [|y b] [|z c]; simpl;
    try reflexivity; try discriminate.
  unfold Ascii.compare.
  destruct (N.compare_spec (Ascii.N_of_ascii x) (Ascii.N_of_ascii y)) as [E1|E1|E1];
    destruct (N.compare_spec (Ascii.N_of_ascii y) (Ascii.N_of_ascii z)) as [E2|E2|E2];
    destruct (N.compare_spec (Ascii.N_of_ascii x) (Ascii.N_of_ascii z)) as [E3|E3|E3];
    try discriminate; try reflexivity; try lia; intros H1 H2.
  apply (IH b c); assumption.
Qed.

Lemma location_leb_le (a b : Location) :
  location_leb a b = true -> location_le a b.
Proof.
  unfold location_leb, location_le.
  destruct (City a =? City b)%string eqn:E.
  - apply String.eqb_eq in E. rewrite E. intros H. split;
      [apply string_leb_refl | auto].
  - apply String.eqb_neq in E. intros H. split; [exact H | contradiction].
Qed.

Lemma location_leb_total (a b : Location) :
  location_leb a b = true \/ location_leb b a = true.
Proof.
  unfold location_leb. rewrite (String.eqb_sym (City b) (City a)).
  destruct (City a =? City b)%string; apply String.leb_total.
Qed.

Lemma location_le_trans (a b c : Location) :
  location_le a b -> location_le b c -> location_le a c.
Proof.
  unfold location_le. intros [H1 H2] [H3 H4]. split.
  - eapply string_leb_trans; eassumption.
  - intros E. rewrite E in *.
    assert (City b = City c) as Ebc by (apply String.leb_antisym; assumption).
    rewrite Ebc in *. eapply string_leb_trans; eauto.
Qed.

Section OrderByTotal.
Context {A : Type} (leb : A -> A -> bool) (le : A -> A -> Prop).
Hypothesis leb_le : forall a b, leb a b = true -> le a b.
Hypothesis leb_total : forall a b, leb a b = true \/ leb b a = true.
Hypothesis le_trans : forall a b c, le a b -> le b c -> le a c.

Lemma insert_by_Permutation (x : A) (l : list A) :
  Permutation (insert_by leb x l) (x :: l).
Proof.
  induction l as [|y l IH]; simpl; [reflexivity|].
  destruct (leb x y); [reflexivity|].
  rewrite IH. apply perm_swap.
Qed.

Lemma order_by_Permutation (l : list A) : Permutation (order_by leb l) l.
Proof.
  induction l as [|x l IH]; simpl; [reflexivity|].
  rewrite insert_by_Permutation, IH. reflexivity.
Qed.

Lemma insert_by_sorted (x : A) (l : list A) :
  StronglySorted le l -> StronglySorted le (insert_by leb x l).
Proof.
  induction l as [|y l IH]; simpl; intros Hs.
  - constructor; constructor.
  - apply StronglySorted_inv in Hs. destruct Hs as [Hs Hall].
    destruct (leb x y) eqn:E.
    + constructor; [constructor; assumption|].
      constructor; [auto|].
      eapply Forall_impl; [|exact Hall]. intros z Hz.
      eapply le_trans; [apply leb_le; exact E | exact Hz].
    + constructor; [auto|].
      rewrite Forall_forall in *. intros z Hz.
      apply insert_by_In in Hz. destruct Hz as [->|Hz]; [|auto].
      destruct (leb_total x y) as [H|H]; [congruence | auto].
Qed.

Lemma order_by_sorted (l : list A) : StronglySorted le (order_by leb l).
Proof.
  induction l as [|x l IH]; simpl; [constructor|].
  apply insert_by_sorted, IH.
Qed.
End OrderByTotal.

(** X14: when the driver reports no failure, [fetchAllLocations] returns
    one row per location of the table, each exactly once, ordered by City
    and, within a city, by Street. *)
Theorem fetchAllLocations_sorted_by_city_then_street :
  forall (w : World),
    faults w = [] ->
    exists locations,
      fst (fetchAllLocations w) = Returned (map location_row locations) /\
      Permutation locations (Locations (committed w)) /\
      StronglySorted location_le locations.
Proof.
  intros w Hf. exists (order_by location_leb (Locations (committed w))).
  split; [|split].
  - destruct w as [cm ss sq fs co ev ck gr dl]. simpl in Hf. subst fs.
    reflexivity.
  - apply order_by_Permutation.
  - apply (order_by_sorted location_leb location_le location_leb_le
             location_leb_total location_le_trans).
Qed.

Lemma fetchAllLocations_sorted_by_city_then_street_witness :
  exists locations,
    fst (fetchAllLocations (boot sample_database []))
    = Returned (map location_row locations) /\
    Permutation locations (Locations sample_database) /\
    StronglySorted location_le locations.
Proof.
  apply (fetchAllLocations_sorted_by_city_then_street
           (boot sample_database []) eq_refl).
Defined.

(** ** Liked recipes *)

Lemma select_liked_recipes_spec (db : Database) (row : Row) :
  In row (select_liked_recipes db) <-> liked_by_someone db row.
Proof.
  unfold select_liked_recipes, liked_by_someone, liked_row.
  rewrite in_flat_map. split.
  - intros (rl & Hrl & Hrow). apply order_by_In in Hrl.
    destruct (Liked rl =? 1) eqn:El; [|contradiction]. apply Z.eqb_eq in El.
    apply in_flat_map in Hrow. destruct Hrow as (rc & Hrc & Hrow).
    destruct (like_RecipeID rl =? RecipeID rc) eqn:Er; [|contradiction].
    apply Z.eqb_eq in Er. apply in_flat_map in Hrow.
    destruct Hrow as (u & Hu & Hrow).
    destruct (UserID rc =? creator_UserID u) eqn:Eu; [|contradiction].
    apply Z.eqb_eq in Eu. destruct Hrow as [<-|[]].
    exists rl, rc, u. repeat split; auto.
  - intros (rl & rc & u & Hrl & El & Hrc & Er & Hu & Eu & ->).
    exists rl. split; [apply order_by_In; exact Hrl|].
    apply Z.eqb_eq in El. rewrite El. apply in_flat_map. exists rc.
    split; [exact Hrc|]. symmetry in Er. apply Z.eqb_eq in Er. rewrite Er.
    apply in_flat_map. exists u. split; [exact Hu|].
    symmetry in Eu. apply Z.eqb_eq in Eu. rewrite Eu. left; reflexivity.
Qed.

(** X15: in every world each row of [fetchLikedRecipes] is a recipe of
    [RecipeCreated2] with the name of its creator, for a row of
    [RecipesLiked] whose flag is 1; when the driver reports no failure,
    every such row is among the rows returned. *)
Theorem fetchLikedRecipes_returns_the_likes :
  forall (w : World),
    (forall rs row, fst (fetchLikedRecipes w) = Returned rs -> In row rs ->
                    liked_by_someone (committed w) row) /\
    (faults w = [] ->
     exists rs, fst (fetchLikedRecipes w) = Returned rs /\
                forall row, liked_by_someone (committed w) row -> In row rs).
Proof.
  intros w. split.
  - intros rs row H Hin.
    destruct (fetchLikedRecipes_returns w) as [E|E]; rewrite E in H;
      injection H as <-; [contradiction|].
    apply select_liked_recipes_spec. exact Hin.
  - intros Hf. exists (select_liked_recipes (committed w)). split.
    + destruct w as [cm ss sq fs co ev ck gr dl]. simpl in Hf. subst fs.
      reflexivity.
    + intros row. apply select_liked_recipes_spec.
Qed.

Lemma fetchLikedRecipes_returns_the_likes_witness :
  exists rs,
    fst (fetchLikedRecipes (boot sample_database [])) = Returned rs /\
    In [VNum 7; VStr "Pasta Verde"; VStr "Italian"; VStr "00:30:00"; VStr "Cy"]
       rs.
Proof.
  destruct (fetchLikedRecipes_returns_the_likes (boot sample_database []))
    as [_ H].
  destruct (H eq_refl) as (rs & Hr & Hall). exists rs. split; [exact Hr|].
  apply Hall.
  exists (mkRecipeLike 1 7 1), (mkRecipe 7 "Pasta Verde" "Italian" "00:30:00" 3),
    (mkCreator 3 "Cy").
  simpl. repeat split; auto.
Defined.

(** ** One rank for a user *)

Lemma at_most_one_key {A : Type} (key : A -> Z) (l : list A) (m : Z) :
  NoDup (map key l) ->
  (List.length (filter (fun a => (key a =? m)%Z) l) <= 1)%nat.
Proof.
  induction l as [|t l IH]; simpl; intros Hnd; [lia|].
  inversion Hnd as [|x l' Hnotin Hnd']; subst.
  destruct (key t =? m) eqn:E; [|auto].
  apply Z.eqb_eq in E. simpl.
  assert (filter (fun a => key a =? m) l = []) as ->; [|simpl; lia].
  destruct (filter (fun a => key a =? m) l) as [|p ps] eqn:Ef;
    [reflexivity|].
  exfalso. apply Hnotin.
  assert (Hin : In p (filter (fun a => key a =? m) l))
    by (rewrite Ef; left; reflexivity).
  apply filter_In in Hin. destruct Hin as [Hin Hp]. apply Z.eqb_eq in Hp.
  rewrite E, <- Hp. apply in_map. exact Hin.
Qed.

Lemma guarded_rows_length {A B : Type} (c d : A -> bool) (g : A -> B)
      (l : list A) :
  (List.length (flat_map (fun p => if c p && d p then [g p] else []) l)
   <= List.length (filter d l))%nat.
Proof.
  induction l as [|p l IH]; simpl; [lia|].
  rewrite length_app. destruct (c p), (d p); simpl; lia.
Qed.

Lemma ranked_length (db : Database) (u : User) :
  NoDup (map tier_Points (User1 db)) ->
  (List.length (ranked db u) <= 1)%nat.
Proof.
  intros Hnd. unfold ranked.
  destruct (max_tier_points (User1 db) (Points u)) as [m|].
  - pose proof (at_most_one_key tier_Points (User1 db) m Hnd) as H.
    pose proof (guarded_rows_length (fun p => tier_Points p <=? Points u)
                  (fun p => tier_Points p =? m) (user_row u) (User1 db)) as G.
    lia.
  - pose proof (guarded_rows_length (fun p => tier_Points p <=? Points u)
                  (fun _ => false) (user_row u) (User1 db)) as G.
    assert (E : forall l : list Tier, filter (fun _ => false) l = [])
      by (intros l; induction l; simpl; auto).
    rewrite E in G. simpl in G. lia.
Qed.

Lemma ranked_first_number (db : Database) (u : User) (row : Row) :
  In row (ranked db u) -> first_number row = UserId u.
Proof.
  intros H. apply ranked_spec in H. destruct H as (p & _ & ->). reflexivity.
Qed.

Lemma filter_none {A : Type} (f : A -> bool) (l : list A) :
  (forall a, In a l -> f a = false) -> filter f l = [].
Proof.
  induction l as [|a l IH]; simpl; intros H; [reflexivity|].
  rewrite (H a) by (left; reflexivity). apply IH. intros b Hb. apply H.
  right. exact Hb.
Qed.

Lemma rows_of_one_key {A : Type} (key : A -> Z) (f : A -> list Row) (id : Z)
      (l : list A) :
  (forall a row, In row (f a) -> first_number row = key a) ->
  (forall a, List.length (f a) <= 1)%nat ->
  (List.length (filter (fun row => (first_number row =? id)%Z) (flat_map f l))
   <= List.length (filter (fun a => (key a =? id)%Z) l))%nat.
Proof.
  intros Hkey Hone. induction l as [|a l IH]; simpl; [lia|].
  rewrite filter_app, length_app.
  destruct (key a =? id) eqn:E; simpl.
  - pose proof (filter_length_le (fun row => first_number row =? id) (f a)).
    specialize (Hone a). lia.
  - rewrite (filter_none (fun row => first_number row =? id) (f a)).
    + simpl. exact IH.
    + intros row Hrow. rewrite (Hkey a row Hrow). exact E.
Qed.

Lemma selected_rows_length {A B : Type} (c : A -> bool) (f : A -> list B)
      (l : list A) :
  (forall a, List.length (f a) <= 1)%nat ->
  (List.length (flat_map (fun a => if c a then f a else []) l)
   <= List.length (filter c l))%nat.
Proof.
  intros Hone. induction l as [|a l IH]; simpl; [lia|].
  rewrite length_app. specialize (Hone a). destruct (c a); simpl; lia.
Qed.

(** X16: when the thresholds of the tiers are pairwise distinct and so are
    the ids of the users, no user gets two ranks: in every world
    [fetchAllUsers] returns at most one row for each user id, and
    [fetchUser] at most one row for the decimal numeral of an id. *)
Theorem distinct_thresholds_give_one_rank :
  forall (w : World) (rs : list Row),
    NoDup (map tier_Points (User1 (committed w))) ->
    NoDup (map UserId (User2 (committed w))) ->
    (forall (X : Type) (arg : X) (id : Z),
       fst (fetchAllUsers arg w) = Returned rs ->
       (List.length (filter (fun row => (first_number row =? id)%Z) rs)
        <= 1)%nat) /\
    (forall (UserID : string) (id : Z),
       decimal UserID = Some id ->
       fst (fetchUser UserID w) = Returned rs ->
       (List.length rs <= 1)%nat).
Proof.
  intros w rs Hnd Hids. split.
  - intros X arg id H.
    destruct (fetchAllUsers_returns X arg w) as [E|E]; rewrite E in H;
      injection H as <-; [simpl; lia|].
    unfold select_all_users.
    set (users := order_by (fun a b => UserId a <=? UserId b)
                           (User2 (committed w))).
    assert (Hsorted : NoDup (map UserId users)).
    { apply (Permutation_NoDup (l := map UserId (User2 (committed w))));
        [|exact Hids].
      apply Permutation_map, Permutation_sym, order_by_Permutation. }
    pose proof (rows_of_one_key UserId (ranked (committed w)) id users
                  (ranked_first_number (committed w))
                  (fun u => ranked_length (committed w) u Hnd)) as Hrows.
    pose proof (at_most_one_key UserId users id Hsorted). lia.
  - intros UserID id Hid H.
    destruct (fetchUser_returns UserID id w Hid) as [E|E]; rewrite E in H;
      injection H as <-; [simpl; lia|].
    pose proof (at_most_one_key UserId (User2 (committed w)) id Hids) as Hone.
    pose proof (selected_rows_length (fun u => UserId u =? id)
                  (ranked (committed w)) (User2 (committed w))
                  (fun u => ranked_length (committed w) u Hnd)) as Hrows.
    unfold select_user. lia.
Qed.

Lemma distinct_thresholds_give_one_rank_witness :
  let w := boot sample_database [] in
  fst (fetchUser "2" w) = Returned [[VNum 2; VStr "Bob"; VNum 499; VStr "Silver"]]
  /\ (1 <= 1)%nat.
Proof.
  intros w. split; [vm_compute; reflexivity|].
  assert (Hnd : NoDup (map tier_Points (User1 (committed w)))).
  { simpl. repeat constructor; simpl; intuition discriminate. }
  assert (Hids : NoDup (map UserId (User2 (committed w)))).
  { simpl. repeat constructor; simpl; intuition discriminate. }
  destruct (distinct_thresholds_give_one_rank w
              [[VNum 2; VStr "Bob"; VNum 499; VStr "Silver"]] Hnd Hids)
    as [_ H].
  apply (H "2" 2 eq_refl). vm_compute; reflexivity.
Defined.

(** X17: a user whose points are below the threshold of every tier has no
    rank and is left out of the answers: in every world no row of
    [fetchAllUsers], and no row of [fetchUser] for the decimal numeral of
    an id, carries the points of such a user. *)
Theorem users_below_every_threshold_are_left_out :
  forall (w : World) (u : User) (rs : list Row) (row : Row),
    (forall t, In t (User1 (committed w)) -> Points u < tier_Points t) ->
    nth_error row 2 = Some (VNum (Points u)) ->
    (forall (X : Type) (arg : X),
       fst (fetchAllUsers arg w) = Returned rs -> ~ In row rs) /\
    (forall (UserID : string) (id : Z),
       decimal UserID = Some id ->
       fst (fetchUser UserID w) = Returned rs -> ~ In row rs).
Proof.
  intros w u rs row Hbelow Hrow.
  assert (Hno : forall u' p,
             rank_tier (committed w) (Points u') p ->
             row = user_row u' p -> False).
  { intros u' p (Hp & Hle & _) ->. unfold user_row in Hrow. simpl in Hrow.
    injection Hrow as Hpts. specialize (Hbelow p Hp). lia. }
  split.
  - intros X arg H Hin.
    destruct (fetchAllUsers_returns X arg w) as [E|E]; rewrite E in H;
      injection H as <-; [contradiction|].
    apply select_all_users_spec in Hin. destruct Hin as (u' & p & _ & Hp & Heq).
    eapply Hno; eassumption.
  - intros UserID id Hid H Hin.
    destruct (fetchUser_returns UserID id w Hid) as [E|E]; rewrite E in H;
      injection H as <-; [contradiction|].
    apply select_user_spec in Hin.
    destruct Hin as (u' & p & _ & _ & Hp & Heq).
    eapply Hno; eassumption.
Qed.

Lemma users_below_every_threshold_are_left_out_witness :
  let db := mkDatabase [] [] [] [] [mkUser 5 "Dee" 10]
                       [mkTier 50 "Bronze"; mkTier 100 "Silver"]
                       [] [] [] [] [] in
  fst (fetchAllUsers tt (boot db [])) = Returned [] /\
  ~ In [VNum 5; VStr "Dee"; VNum 10; VStr "Bronze"] [].
Proof.
  intros db. split; [vm_compute; reflexivity|].
  destruct (users_below_every_threshold_are_left_out (boot db [])
              (mkUser 5 "Dee" 10) []
              [VNum 5; VStr "Dee"; VNum 10; VStr "Bronze"]) as [H _].
  - simpl. intros t [<-|[<-|[]]]; simpl; lia.
  - reflexivity.
  - apply (H unit tt). vm_compute; reflexivity.
Defined.

(** ** Creating, then deleting; updating twice *)

Lemma delete_recipe_appended (id : Z) (rs : list Recipe) (r : Recipe) :
  RecipeID r = id ->
  (forall r', In r' rs -> RecipeID r' <> id) ->
  delete_recipe id (rs ++ [r]) = rs /\ count_matching id (rs ++ [r]) = 1.
Proof.
  intros Hid Hfresh. unfold delete_recipe, count_matching.
  induction rs as [|r0 rs IH]; simpl.
  - apply Z.eqb_eq in Hid. rewrite Hid. simpl. auto.
  - assert (E : (RecipeID r0 =? id) = false)
      by (apply Z.eqb_neq, Hfresh; left; reflexivity).
    rewrite E. simpl.
    destruct IH as [IH1 IH2]; [intros r' Hr'; apply Hfresh; right; exact Hr'|].
    rewrite IH1. split; [reflexivity | exact IH2].
Qed.

(** X18: deleting undoes creating: when [createRecipe] has returned an id
    that no recipe had before and the driver reports no failure
    afterwards, [deleteRecipe] of a text the database reads as that id
    returns 1 and leaves the committed recipes exactly as they were before
    the creation. *)
Theorem createRecipe_then_deleteRecipe :
  forall (recipe : RecipeInput) (id : Z) (text : string) (w w1 : World),
    createRecipe recipe w = (Returned (JNum id), w1) ->
    faults w1 = [] ->
    read_bind (dialect w1) text = Integer id ->
    (forall r, In r (RecipeCreated2 (committed w)) -> RecipeID r <> id) ->
    fst (deleteRecipe text w1) = Returned 1 /\
    RecipeCreated2 (committed (snd (deleteRecipe text w1)))
    = RecipeCreated2 (committed w).
Proof.
  intros recipe id text w w1 Hc Hf Htext Hfresh.
  destruct (createRecipe_effect recipe w) as [[Hr _]|[Hr Hcm]];
    rewrite Hc in *; simpl in *; [discriminate Hr|].
  injection Hr as ->.
  destruct (delete_recipe_appended (recipe_seq w) (RecipeCreated2 (committed w))
              (recipe_of (recipe_seq w) recipe) eq_refl Hfresh) as [Hd Hn].
  assert (Hrun : fst (deleteRecipe text w1)
                 = Returned (count_matching (recipe_seq w)
                               (RecipeCreated2 (committed w1))) /\
                 committed (snd (deleteRecipe text w1))
                 = with_RecipeCreated2
                     (delete_recipe (recipe_seq w)
                                    (RecipeCreated2 (committed w1)))
                     (committed w1)).
  { clear - Hf Htext. destruct w1 as [cm ss sq fs co ev ck gr dl].
    simpl in Hf, Htext. subst fs. unfold deleteRecipe. run_executor.
    rewrite Htext. split; reflexivity. }
  destruct Hrun as [Hrun Hcommitted].
  rewrite Hrun, Hcommitted, Hcm. simpl. rewrite Hd, Hn. auto.
Qed.

Lemma createRecipe_then_deleteRecipe_witness :
  let recipe := mkRecipeInput "Soup" "Thai" "00:10:00" 2 in
  let w := boot sample_database [] in
  fst (deleteRecipe "1" (snd (createRecipe recipe w))) = Returned 1 /\
  RecipeCreated2 (committed (snd (deleteRecipe "1" (snd (createRecipe recipe w)))))
  = RecipeCreated2 sample_database.
Proof.
  intros recipe w.
  apply (createRecipe_then_deleteRecipe recipe 1 "1" w
           (snd (createRecipe recipe w)));
    [vm_compute; reflexivity | vm_compute; reflexivity | reflexivity |].
  simpl. intros r [<-|[<-|[]]]; simpl; lia.
Defined.

Lemma update_recipe_twice name cuisine time user (id : Z) (rs : list Recipe) :
  update_recipe name cuisine time user id
    (update_recipe name cuisine time user id rs)
  = update_recipe name cuisine time user id rs.
Proof.
  unfold update_recipe. rewrite map_map. apply map_ext. intros r.
  destruct (RecipeID r =? id) eqn:E; simpl; [rewrite Z.eqb_refl|rewrite E];
    reflexivity.
Qed.

Lemma count_matching_updated name cuisine time user (id : Z)
      (rs : list Recipe) :
  count_matching id (update_recipe name cuisine time user id rs)
  = count_matching id rs.
Proof.
  unfold count_matching, update_recipe. f_equal.
  induction rs as [|r rs IH]; simpl; [reflexivity|].
  destruct (RecipeID r =? id) eqn:E; simpl; [rewrite Z.eqb_refl|rewrite E];
    simpl; rewrite IH; reflexivity.
Qed.

Lemma updateRecipe_without_failure (recipe : RecipeInput) (recipeID : string)
      (w : World) :
  faults w = [] ->
  let w1 := snd (updateRecipe (recipe, recipeID) w) in
  faults w1 = [] /\
  dialect w1 = dialect w /\
  match read_bind (dialect w) recipeID with
  | Integer id =>
      fst (updateRecipe (recipe, recipeID) w)
      = Returned (count_matching id (RecipeCreated2 (committed w))) /\
      committed w1
      = with_RecipeCreated2
          (update_recipe (in_RecipeName recipe) (in_Cuisine recipe)
                         (in_CookingTime recipe) (in_UserID recipe) id
                         (RecipeCreated2 (committed w)))
          (committed w)
  | _ =>
      fst (updateRecipe (recipe, recipeID) w) = Returned 0 /\
      committed w1 = committed w
  end.
Proof.
  destruct w as [cm ss sq fs co ev ck gr dl]. simpl. intros ->.
  unfold updateRecipe. run_executor.
  destruct (read_bind dl recipeID); cbv beta iota zeta;
    repeat match goal with |- _ /\ _ => split end; reflexivity.
Qed.

(** X19: [updateRecipe] is idempotent: when the driver reports no failure,
    a second call with the same recipe returns the same count as the
    first and leaves the committed tables as the first left them. *)
Theorem updateRecipe_twice_is_updateRecipe_once :
  forall (recipe : RecipeInput) (id : string) (w : World),
    faults w = [] ->
    let w1 := snd (updateRecipe (recipe, id) w) in
    fst (updateRecipe (recipe, id) w1) = fst (updateRecipe (recipe, id) w) /\
    committed (snd (updateRecipe (recipe, id) w1)) = committed w1.
Proof.
  intros recipe id w Hf w1. unfold w1.
  destruct (updateRecipe_without_failure recipe id w Hf) as (Hf1 & Hdl & H).
  destruct (updateRecipe_without_failure recipe id _ Hf1) as (_ & _ & H1).
  rewrite Hdl in H1.
  destruct (read_bind (dialect w) id) as [n| |];
    destruct H as [Hr Hc]; destruct H1 as [Hr1 Hc1];
    rewrite Hr1, Hc1, Hr, ?Hc; simpl;
    rewrite ?count_matching_updated, ?update_recipe_twice; split; reflexivity.
Qed.

Lemma updateRecipe_twice_is_updateRecipe_once_witness :
  let recipe := mkRecipeInput "Pesto" "Italian" "00:20:00" 2 in
  let w := boot sample_database [] in
  fst (updateRecipe (recipe, "7") (snd (updateRecipe (recipe, "7") w)))
  = fst (updateRecipe (recipe, "7") w).
Proof.
  intros recipe w.
  apply (updateRecipe_twice_is_updateRecipe_once recipe "7" w eq_refl).
Defined.

(** ** Start and shutdown *)

(** X20: [closePoolAndExit] always ends the process: with status 0 when
    there is a pool and its close succeeds, after which the pool is gone
    and 'Pool closed' is the last line printed, and with status 1 when
    there is no pool or its close fails. *)
Theorem closePoolAndExit_exit_status :
  forall (p : Process),
    exit_code (closePoolAndExit p)
    = Some (match pool p, faults (world p) with
            | Some _, Some _ :: _ => 1
            | Some _, _ => 0
            | None, _ => 1
            end) /\
    (exit_code (closePoolAndExit p) = Some 0 ->
     pool (closePoolAndExit p) = None /\
     last (console (world (closePoolAndExit p))) (LogText "")
     = LogText "Pool closed").
Proof.
  intros [[cm ss sq fs co ev ck gr dl] [config|] code];
    unfold closePoolAndExit, close_pool, print, process_exit, next_fault;
    simpl.
  - destruct fs as [|[err|] fs]; simpl; split; try reflexivity;
      try discriminate; intros _; (split; [reflexivity|]);
      apply last_last.
  - split; [reflexivity | discriminate].
Qed.

Lemma closePoolAndExit_exit_status_witness :
  pool (closePoolAndExit
          (mkProcess (boot sample_database []) (Some dbConfig) None)) = None.
Proof.
  apply (closePoolAndExit_exit_status
           (mkProcess (boot sample_database []) (Some dbConfig) None)).
  reflexivity.
Defined.

(** X21: a failure to create the pool is printed and goes no further: the
    process runs on without a pool, and the shutdown that follows exits
    with status 1. *)
Theorem failed_initialization_is_only_printed :
  forall (p : Process) (err : Error) (fs : list (option Error)),
    pool p = None ->
    faults (world p) = Some err :: fs ->
    let p1 := initializeConnectionPool p in
    pool p1 = None /\
    exit_code p1 = exit_code p /\
    console (world p1)
    = (console (world p)
       ++ [LogText ("Initialization error: " ++ err_message err)])%list /\
    committed (world p1) = committed (world p) /\
    exit_code (closePoolAndExit p1) = Some 1.
Proof.
  intros [[cm ss sq fs0 co ev ck gr dl] pl code] err fs Hp Hf. simpl in *.
  subst pl fs0. repeat split; reflexivity.
Qed.

Lemma failed_initialization_is_only_printed_witness :
  exit_code
    (closePoolAndExit
       (initializeConnectionPool
          (mkProcess (boot sample_database [Some (DbError "ORA-12541")])
                     None None)))
  = Some 1.
Proof.
  apply (failed_initialization_is_only_printed
           (mkProcess (boot sample_database [Some (DbError "ORA-12541")])
                      None None)
           (DbError "ORA-12541") [] eq_refl eq_refl).
Defined.

(** ** The [columns] query parameter *)

(** X22: a [columns] query parameter that is an array (a repeated
    parameter) or an object makes the handlers of [GET /recipes],
    [/user/:id] and [/users] throw a TypeError before any call of an
    executor: no response is computed and the world is left as it was,
    whatever the driver would report and whatever [fetchRecipes] is. *)
Theorem columns_array_or_object_throws :
  forall (fetchRecipes :
            option (list string) -> option QueryValue -> option QueryValue ->
            QueryValue -> QueryValue -> M (list Row))
         (req : Request) (items : list QueryValue)
         (fields : list (string * QueryValue)) (w : World),
    let thrown : Outcome Response * World :=
      (Thrown (TypeError "req.query.columns.split is not a function"), w) in
    get_recipes fetchRecipes (with_columns (QArray items) req) w = thrown /\
    get_recipes fetchRecipes (with_columns (QObject fields) req) w = thrown /\
    get_user (with_columns (QArray items) req) w = thrown /\
    get_user (with_columns (QObject fields) req) w = thrown /\
    get_users (with_columns (QArray items) req) w = thrown /\
    get_users (with_columns (QObject fields) req) w = thrown.
Proof.
  intros fetchRecipes req items fields w thrown.
  repeat match goal with |- _ /\ _ => split end; reflexivity.
Qed.
